(** * Drives: the transport / unloading reconciliation of [Drive_Sheets.py]

    A shallow embedding of the key normaliser
    [_normalizar_texto_para_chave], of the key columns built by
    [processar_dados_descargas] and [processar_dados_transportes], and of the
    two-stage matcher [cruzar_e_atualizar_transportes] (identical, up to the
    label of the second stage, in [Capacidade.py]), followed by the
    properties of the matcher.  Two helpers around it are embedded as well:
    the column letters of the sheet ([_convert_to_excel_col],
    [Config.get_col_letter]) and the update loop of the Bsoft merge of the
    Transito script, the one place where a set of used invoice numbers is
    consulted.

    Python strings are sequences of Unicode code points, a DataFrame is the
    list of its rows in index order, the dictionaries built by
    [to_dict('index')] are [gmap]s and the set of used indices is a [gset]. *)

From Stdlib Require Import ZArith NArith Lia Ascii String Wf_nat.
From stdpp Require Import base list gmap strings.

Set Warnings "-clear-no-such-hyp".

(** ** Python strings *)

Abbreviation str := (list N).

(** Code points of an ASCII literal. *)
Fixpoint cp (s : string) : str :=
  match s with
  | EmptyString => []
  | String a r => N_of_ascii a :: cp r
  end.
Arguments cp s%_string.

Module Py.
Local Open Scope N_scope.

(** [str.isspace] on one code point: the white space removed by
    [str.strip()]. *)
Definition is_space (c : N) : bool :=
  ((9 <=? c) && (c <=? 13)) || ((28 <=? c) && (c <=? 32))
  || (c =? 0x85) || (c =? 0xA0) || (c =? 0x1680)
  || ((0x2000 <=? c) && (c <=? 0x200A))
  || (c =? 0x2028) || (c =? 0x2029) || (c =? 0x202F) || (c =? 0x205F)
  || (c =? 0x3000).

Fixpoint lstrip (s : str) : str :=
  match s with
  | [] => []
  | c :: r => if is_space c then lstrip r else s
  end.

Definition rstrip (s : str) : str := rev (lstrip (rev s)).

(** [s.strip()] *)
Definition strip (s : str) : str := rstrip (lstrip s).

(** The lower-case mapping of one code point.  It is the Unicode mapping
    used by [str.lower()] on ASCII and Latin-1 and on the five code points
    outside them whose lower case falls inside (U+0130, whose lower case is
    [i] followed by U+0307, U+0178, U+1E9E, U+212A and U+212B).  Letters of other
    scripts lower to code points above U+00FF; they are left as they are,
    which no test of this program can observe: the key pattern deletes every
    code point outside [a-z0-9], and the status literals are Latin-1. *)
Definition lower_char (c : N) : str :=
  if (0x41 <=? c) && (c <=? 0x5A) then [c + 32]
  else if (0xC0 <=? c) && (c <=? 0xDE) && negb (c =? 0xD7) then [c + 32]
  else if c =? 0x130 then [0x69; 0x307]
  else if c =? 0x178 then [0xFF]
  else if c =? 0x1E9E then [0xDF]
  else if c =? 0x212A then [0x6B]
  else if c =? 0x212B then [0xE5]
  else [c].

(** [s.lower()] *)
Definition lower (s : str) : str := flat_map lower_char s.

(** A code point matched by the character class [a-z0-9]. *)
Definition is_az09 (c : N) : bool :=
  ((0x61 <=? c) && (c <=? 0x7A)) || ((0x30 <=? c) && (c <=? 0x39)).

(** [re.sub('[^a-z0-9]', '', s)]: every code point outside the class is
    deleted. *)
Definition sub_fora_az09 (s : str) : str := List.filter is_az09 s.

(** [s.upper()] on an ASCII text. *)
Definition upper_ascii (s : str) : str :=
  (fun c => if (0x61 <=? c) && (c <=? 0x7A) then c - 32 else c) <$> s.

(** [s.encode('ascii', 'ignore').decode('utf-8')]: the code points outside
    ASCII are dropped. *)
Definition so_ascii (s : str) : str := List.filter (fun c => c <? 128) s.

(** [pat in s] for strings. *)
Fixpoint prefixo (pat s : str) : bool :=
  match pat, s with
  | [], _ => true
  | _ :: _, [] => false
  | p :: pr, c :: r => (p =? c) && prefixo pr r
  end.

Fixpoint contem (pat s : str) : bool :=
  prefixo pat s ||
  match s with
  | [] => false
  | _ :: r => contem pat r
  end.

End Py.

(** A cell read from a sheet, as far as [str()] and [astype(str)] tell the
    values apart: [None], the float NaN of an empty cell, or a text. *)
Inductive valor :=
  | VNone
  | VNaN
  | VStr (s : str).

(** [str(x)] *)
Definition py_str (v : valor) : str :=
  match v with
  | VNone => cp "None"
  | VNaN => cp "nan"
  | VStr s => s
  end.

(** ** The key normaliser

    [re.sub('[^a-z0-9]', '', str(series).strip().lower())]; on a [Series] the
    same three steps are applied to each element after [astype(str)]. *)
Definition _normalizar_texto_para_chave (series : valor) : str :=
  Py.sub_fora_az09 (Py.lower (Py.strip (py_str series))).

(** The normaliser of the Hidratado script, [DataProcessor._normalizar_texto],
    on one element of the series:
    [astype(str)], [normalize('NFKD')], [encode('ascii', 'ignore')],
    [decode('utf-8')], [strip()], [upper()].  The Unicode decomposition
    [unicodedata.normalize('NFKD', _)] is a parameter. *)
Definition _normalizar_texto (nfkd : str -> str) (x : valor) : str :=
  Py.upper_ascii (Py.strip (Py.so_ascii (nfkd (py_str x)))).

(** ** Rows of the two DataFrames *)

(** The two scripts that carry the matcher.  They differ in three places:
    [Capacidade.py] strips the status before lowering it, reads the key of
    the second stage from a column instead of rebuilding it, and returns its
    argument untouched when one of the inputs is empty. *)
Inductive Script := Drive_Sheets | Capacidade.

(** The values written to the column [fonte_atualizacao]:
    ['Não Atualizado'], ['Etapa 1 - Chave Primária'] and ['Etapa 2 - Placa']
    (['Etapa 2 - Chave Placa'] in [Capacidade.py]). *)
Inductive Fonte := NaoAtualizado | Etapa1ChavePrimaria | Etapa2Placa.

Global Instance Fonte_eq_dec : EqDecision Fonte.
Proof. solve_decision. Defined.

(** One row of [df_descargas].  Dates are [Timestamp]s, read as integers,
    with [None] for NaT / NaN.  [original_index] is the index label of the
    row, copied into a column by
    [descargas_com_indice['original_index'] = descargas_com_indice.index]. *)
Record Descarga := {
  nota : valor;
  d_produto : valor;
  placa : valor;
  fonte_padronizada : valor;
  data : option Z;
  data_de_descarga : option Z;
  d_chave_primaria : str;
  chave_placa_fonte_produto : str;
  original_index : Z
}.

(** One row of [df_transportes]; its position in the list is its index. *)
Record Transporte := {
  nfe : valor;
  produto : valor;
  recebedor : valor;
  cavalo : valor;
  status : str;
  data_de_carregamento : option Z;
  data_chegada : option Z;
  data_descarga : option Z;
  chave_primaria : str;
  chave_placa_recebedor_produto : str;
  fonte_atualizacao : Fonte
}.

(** Assignments to one column of a row. *)
Definition set_status (v : str) (t : Transporte) : Transporte :=
  {| nfe := nfe t; produto := produto t; recebedor := recebedor t;
     cavalo := cavalo t; status := v;
     data_de_carregamento := data_de_carregamento t;
     data_chegada := data_chegada t; data_descarga := data_descarga t;
     chave_primaria := chave_primaria t;
     chave_placa_recebedor_produto := chave_placa_recebedor_produto t;
     fonte_atualizacao := fonte_atualizacao t |}.

Definition set_data_chegada (v : option Z) (t : Transporte) : Transporte :=
  {| nfe := nfe t; produto := produto t; recebedor := recebedor t;
     cavalo := cavalo t; status := status t;
     data_de_carregamento := data_de_carregamento t;
     data_chegada := v; data_descarga := data_descarga t;
     chave_primaria := chave_primaria t;
     chave_placa_recebedor_produto := chave_placa_recebedor_produto t;
     fonte_atualizacao := fonte_atualizacao t |}.

Definition set_data_descarga (v : option Z) (t : Transporte) : Transporte :=
  {| nfe := nfe t; produto := produto t; recebedor := recebedor t;
     cavalo := cavalo t; status := status t;
     data_de_carregamento := data_de_carregamento t;
     data_chegada := data_chegada t; data_descarga := v;
     chave_primaria := chave_primaria t;
     chave_placa_recebedor_produto := chave_placa_recebedor_produto t;
     fonte_atualizacao := fonte_atualizacao t |}.

Definition set_fonte_atualizacao (v : Fonte) (t : Transporte) : Transporte :=
  {| nfe := nfe t; produto := produto t; recebedor := recebedor t;
     cavalo := cavalo t; status := status t;
     data_de_carregamento := data_de_carregamento t;
     data_chegada := data_chegada t; data_descarga := data_descarga t;
     chave_primaria := chave_primaria t;
     chave_placa_recebedor_produto := chave_placa_recebedor_produto t;
     fonte_atualizacao := v |}.

Definition set_chaves_transporte (k1 k2 : str) (t : Transporte) : Transporte :=
  {| nfe := nfe t; produto := produto t; recebedor := recebedor t;
     cavalo := cavalo t; status := status t;
     data_de_carregamento := data_de_carregamento t;
     data_chegada := data_chegada t; data_descarga := data_descarga t;
     chave_primaria := k1;
     chave_placa_recebedor_produto := k2;
     fonte_atualizacao := fonte_atualizacao t |}.

Definition set_chaves_descarga (k1 k2 : str) (d : Descarga) : Descarga :=
  {| nota := nota d; d_produto := d_produto d; placa := placa d;
     fonte_padronizada := fonte_padronizada d; data := data d;
     data_de_descarga := data_de_descarga d;
     d_chave_primaria := k1; chave_placa_fonte_produto := k2;
     original_index := original_index d |}.

(** ** The key columns *)

(** [norm(a) + '_' + norm(b) + '_' + norm(c)] *)
Definition chave (a b c : valor) : str :=
  _normalizar_texto_para_chave a ++ cp "_" ++
  _normalizar_texto_para_chave b ++ cp "_" ++
  _normalizar_texto_para_chave c.

(** The two key columns assigned at the end of [processar_dados_descargas]. *)
Definition chaves_descarga (d : Descarga) : Descarga :=
  set_chaves_descarga
    (chave (nota d) (d_produto d) (fonte_padronizada d))
    (chave (placa d) (d_produto d) (fonte_padronizada d)) d.

(** The letter a with circumflex of ['trânsito'] (U+00E2 in the source). *)
Definition a_circ : N := 0xE2%N.

(** [Config.GOOGLE_SHEETS_CONFIG['status_para_incluir']] *)
Definition status_para_incluir : list str :=
  [ cp "Em Tr" ++ [a_circ] ++ cp "nsito";
    cp "Aguardando Descarga";
    cp "Em Tr" ++ [a_circ] ++ cp "nsito By Pass";
    cp "Aguardando By Pass" ].

Definition chaves_transporte (t : Transporte) : Transporte :=
  set_chaves_transporte
    (chave (nfe t) (produto t) (recebedor t))
    (chave (cavalo t) (produto t) (recebedor t)) t.

(** [processar_dados_transportes]: the rows whose lowered status is one of
    the lowered [status_para_incluir], with their two key columns.  (The
    parsing of [data_de_carregamento] with [errors='coerce'] has happened
    when the row is built: an unparseable date is [None].) *)
Definition processar_dados_transportes (df : list Transporte) : list Transporte :=
  let status_validos := Py.lower <$> status_para_incluir in
  let df_filtrado :=
    List.filter (fun t => bool_decide (Py.lower (status t) ∈ status_validos)) df in
  chaves_transporte <$> df_filtrado.

(** ** The matcher *)

(** The six counters of [contadores]. *)
Record Contadores := {
  etapa1_transito_para_aguardando : nat;
  etapa1_transito_para_descarregado : nat;
  etapa1_aguardando_para_descarregado : nat;
  etapa2_transito_para_aguardando : nat;
  etapa2_transito_para_descarregado : nat;
  etapa2_aguardando_para_descarregado : nat
}.

Definition contadores_zero : Contadores := Build_Contadores 0 0 0 0 0 0.

Inductive Transicao :=
  | TransitoParaAguardando
  | TransitoParaDescarregado
  | AguardandoParaDescarregado.

(** [contadores['etapaN_..._para_...'] += 1] *)
Definition incrementar (etapa : Fonte) (tr : Transicao) (c : Contadores) : Contadores :=
  let '(Build_Contadores a1 b1 c1 a2 b2 c2) := c in
  match etapa, tr with
  | Etapa1ChavePrimaria, TransitoParaAguardando => Build_Contadores (S a1) b1 c1 a2 b2 c2
  | Etapa1ChavePrimaria, TransitoParaDescarregado => Build_Contadores a1 (S b1) c1 a2 b2 c2
  | Etapa1ChavePrimaria, AguardandoParaDescarregado => Build_Contadores a1 b1 (S c1) a2 b2 c2
  | Etapa2Placa, TransitoParaAguardando => Build_Contadores a1 b1 c1 (S a2) b2 c2
  | Etapa2Placa, TransitoParaDescarregado => Build_Contadores a1 b1 c1 a2 (S b2) c2
  | Etapa2Placa, AguardandoParaDescarregado => Build_Contadores a1 b1 c1 a2 b2 (S c2)
  | NaoAtualizado, _ => c
  end.

(** The mutable state of one run: the DataFrame [transportes_atualizado],
    the counters and the set [indices_descargas_usados]. *)
Record Estado := {
  transportes_atualizado : list Transporte;
  contadores : Contadores;
  indices_descargas_usados : gset Z
}.

(** [transportes_atualizado.loc[index, col] = v] *)
Definition loc_set (index : nat) (f : Transporte -> Transporte) (st : Estado) : Estado :=
  {| transportes_atualizado := alter f index (transportes_atualizado st);
     contadores := contadores st;
     indices_descargas_usados := indices_descargas_usados st |}.

(** [indices_descargas_usados.add(i)] *)
Definition usados_add (i : Z) (st : Estado) : Estado :=
  {| transportes_atualizado := transportes_atualizado st;
     contadores := contadores st;
     indices_descargas_usados := {[ i ]} ∪ indices_descargas_usados st |}.

Definition contar (etapa : Fonte) (tr : Transicao) (st : Estado) : Estado :=
  {| transportes_atualizado := transportes_atualizado st;
     contadores := incrementar etapa tr (contadores st);
     indices_descargas_usados := indices_descargas_usados st |}.

(** String literals of the matcher. *)
Definition transito : str := cp "tr" ++ [a_circ] ++ cp "nsito".
Definition aguardando : str := cp "aguardando".
Definition aguardando_descarga : str := cp "aguardando descarga".
Definition descarregado : str := cp "descarregado".
Definition AGUARDANDO_DESCARGA : str := cp "AGUARDANDO DESCARGA".
Definition DESCARREGADO : str := cp "DESCARREGADO".

(** [drop_duplicates(subset=[key], keep='last')]: a row stays when no later
    row has its key. *)
Fixpoint drop_duplicates_last {A} (key : A -> str) (df : list A) : list A :=
  match df with
  | [] => []
  | x :: r =>
      if existsb (fun y => bool_decide (key y = key x)) r
      then drop_duplicates_last key r
      else x :: drop_duplicates_last key r
  end.

(** [df.set_index(key).to_dict('index')] on a frame whose keys are unique. *)
Definition to_dict {A} (key : A -> str) (df : list A) : gmap str A :=
  list_to_map ((fun x => (key x, x)) <$> df).

(** The index of one stage:
    [df.drop_duplicates(subset=[key], keep='last').set_index(key).to_dict('index')] *)
Definition mapa {A} (key : A -> str) (df : list A) : gmap str A :=
  to_dict key (drop_duplicates_last key df).

(** [df.iterrows()] *)
Definition iterrows {A} (df : list A) : list (nat * A) := imap pair df.

(** [status_original]: [str(transporte['status']).lower()], with a
    [.strip()] before [.lower()] in [Capacidade.py]. *)
Definition status_original (sc : Script) (transporte : Transporte) : str :=
  match sc with
  | Drive_Sheets => Py.lower (status transporte)
  | Capacidade => Py.lower (Py.strip (status transporte))
  end.

(** ['aguardando descarga' if pd.isna(match.get('data_de_descarga')) else 'descarregado'] *)
Definition novo_status (m : Descarga) : str :=
  match data_de_descarga m with
  | None => aguardando_descarga
  | Some _ => descarregado
  end.

(** The block run on a match, the same in both stages but for the label
    written to [fonte_atualizacao] and the counters. *)
Definition atualizar (sc : Script) (etapa : Fonte) (index : nat)
    (transporte : Transporte) (m : Descarga) (st : Estado) : Estado :=
  let status_original := status_original sc transporte in
  let novo_status := novo_status m in
  if bool_decide (novo_status <> status_original) then
    let st := loc_set index (set_data_chegada (data m)) st in
    let st := loc_set index (set_fonte_atualizacao etapa) st in
    if Py.contem transito status_original
       && bool_decide (novo_status = aguardando_descarga) then
      contar etapa TransitoParaAguardando
        (loc_set index (set_status AGUARDANDO_DESCARGA) st)
    else if Py.contem transito status_original
            && bool_decide (novo_status = descarregado) then
      contar etapa TransitoParaDescarregado
        (loc_set index (set_data_descarga (data_de_descarga m))
           (loc_set index (set_status DESCARREGADO) st))
    else if Py.contem aguardando status_original
            && bool_decide (novo_status = descarregado) then
      contar etapa AguardandoParaDescarregado
        (loc_set index (set_data_descarga (data_de_descarga m))
           (loc_set index (set_status DESCARREGADO) st))
    else st
  else st.

(** One iteration of the first loop. *)
Definition etapa1_passo (sc : Script) (mapa_chaves : gmap str Descarga)
    (st : Estado) (linha : nat * Transporte) : Estado :=
  let '(index, transporte) := linha in
  match mapa_chaves !! chave_primaria transporte with
  | Some m =>
      atualizar sc Etapa1ChavePrimaria index transporte m
        (usados_add (original_index m) st)
  | None => st
  end.

(** The key looked up in the second stage: rebuilt from the cells in
    [Drive_Sheets.py], read from the key column in [Capacidade.py]. *)
Definition chave_busca_placa (sc : Script) (transporte : Transporte) : str :=
  match sc with
  | Drive_Sheets =>
      chave (cavalo transporte) (produto transporte) (recebedor transporte)
  | Capacidade => chave_placa_recebedor_produto transporte
  end.

(** [pd.notna(transporte['data_de_carregamento']) and
     pd.to_datetime(match['data']) >= transporte['data_de_carregamento']];
    a comparison with NaT is false. *)
Definition data_valida (transporte : Transporte) (m : Descarga) : bool :=
  match data_de_carregamento transporte, data m with
  | Some carregamento, Some emissao => (carregamento <=? emissao)%Z
  | _, _ => false
  end.

(** One iteration of the second loop. *)
Definition etapa2_passo (sc : Script) (mapa_placa : gmap str Descarga)
    (st : Estado) (linha : nat * Transporte) : Estado :=
  let '(index, transporte) := linha in
  match mapa_placa !! chave_busca_placa sc transporte with
  | Some m =>
      if data_valida transporte m then
        atualizar sc Etapa2Placa index transporte m
          (usados_add (original_index m) st)
      else st
  | None => st
  end.

Definition etapa1 (sc : Script) (df_descargas : list Descarga) (st : Estado) : Estado :=
  let mapa_chaves := mapa d_chave_primaria df_descargas in
  foldl (etapa1_passo sc mapa_chaves) st (iterrows (transportes_atualizado st)).

Definition etapa2 (sc : Script) (df_descargas : list Descarga) (st : Estado) : Estado :=
  let mapa_placa := mapa chave_placa_fonte_produto df_descargas in
  let transportes_para_etapa_2 :=
    List.filter
      (fun linha => bool_decide (fonte_atualizacao linha.2 = NaoAtualizado))
      (iterrows (transportes_atualizado st)) in
  foldl (etapa2_passo sc mapa_placa) st transportes_para_etapa_2.

(** The state in which the two loops start: every row carries
    [fonte_atualizacao = 'Não Atualizado'], the counters are zero and no
    index is used. *)
Definition estado_inicial (df_transportes : list Transporte) : Estado :=
  {| transportes_atualizado :=
       set_fonte_atualizacao NaoAtualizado <$> df_transportes;
     contadores := contadores_zero;
     indices_descargas_usados := ∅ |}.

(** [cruzar_e_atualizar_transportes]; the counters are [None] for the empty
    dictionary of the early return.  On an empty input [Drive_Sheets.py]
    returns the copy that already carries the new column, [Capacidade.py]
    its argument. *)
Definition cruzar_e_atualizar_transportes (sc : Script)
    (df_transportes : list Transporte) (df_descargas : list Descarga)
    : list Transporte * option Contadores * gset Z :=
  if bool_decide (df_transportes = []) || bool_decide (df_descargas = []) then
    match sc with
    | Drive_Sheets =>
        (set_fonte_atualizacao NaoAtualizado <$> df_transportes, None, ∅)
    | Capacidade => (df_transportes, None, ∅)
    end
  else
    let st := etapa2 sc df_descargas
                (etapa1 sc df_descargas (estado_inicial df_transportes)) in
    (transportes_atualizado st, Some (contadores st), indices_descargas_usados st).

(** ** The two loops read row by row

    Each iteration reads one row of the snapshot and writes the same row of
    the frame, so a loop is a map over the rows; the lemmas [etapa1_linhas]
    and [etapa2_linhas] below prove it. *)

(** The row left by [atualizar]. *)
Definition linha_atualizada (sc : Script) (etapa : Fonte)
    (t : Transporte) (m : Descarga) : Transporte :=
  let so := status_original sc t in
  let ns := novo_status m in
  if bool_decide (ns <> so) then
    let t1 := set_fonte_atualizacao etapa (set_data_chegada (data m) t) in
    if Py.contem transito so && bool_decide (ns = aguardando_descarga) then
      set_status AGUARDANDO_DESCARGA t1
    else if Py.contem transito so && bool_decide (ns = descarregado) then
      set_data_descarga (data_de_descarga m) (set_status DESCARREGADO t1)
    else if Py.contem aguardando so && bool_decide (ns = descarregado) then
      set_data_descarga (data_de_descarga m) (set_status DESCARREGADO t1)
    else t1
  else t.

Definition linha_etapa1 (sc : Script) (mapa_chaves : gmap str Descarga)
    (t : Transporte) : Transporte :=
  match mapa_chaves !! chave_primaria t with
  | Some m => linha_atualizada sc Etapa1ChavePrimaria t m
  | None => t
  end.

(** The index added to [indices_descargas_usados] for one row. *)
Definition usado_etapa1 (mapa_chaves : gmap str Descarga) (t : Transporte) : gset Z :=
  match mapa_chaves !! chave_primaria t with
  | Some m => {[ original_index m ]}
  | None => ∅
  end.

Definition linha_etapa2 (sc : Script) (mapa_placa : gmap str Descarga)
    (t : Transporte) : Transporte :=
  if bool_decide (fonte_atualizacao t = NaoAtualizado) then
    match mapa_placa !! chave_busca_placa sc t with
    | Some m => if data_valida t m then linha_atualizada sc Etapa2Placa t m else t
    | None => t
    end
  else t.

Definition usado_etapa2 (sc : Script) (mapa_placa : gmap str Descarga)
    (t : Transporte) : gset Z :=
  if bool_decide (fonte_atualizacao t = NaoAtualizado) then
    match mapa_placa !! chave_busca_placa sc t with
    | Some m => if data_valida t m then {[ original_index m ]} else ∅
    | None => ∅
    end
  else ∅.

(** The rows of a frame that carry the key [k]. *)
Definition com_chave {A} (key : A -> str) (k : str) (x : A) : bool :=
  bool_decide (key x = k).

(** [True] on the strings made of upper-case ASCII letters and digits only. *)
Definition maiusculo_alfanumerico (s : str) : bool :=
  forallb (fun c => ((0x41 <=? c) && (c <=? 0x5A) || (0x30 <=? c) && (c <=? 0x39))%N) s.

(** ** Vocabulary of the properties *)

(** The key a stage looks up for a row, and the index it looks it up in. *)
Definition chave_de_busca (sc : Script) (etapa : Fonte) (t : Transporte) : str :=
  match etapa with
  | Etapa2Placa => chave_busca_placa sc t
  | _ => chave_primaria t
  end.

Definition mapa_da_etapa (etapa : Fonte) (df_descargas : list Descarga)
    : gmap str Descarga :=
  match etapa with
  | Etapa2Placa => mapa chave_placa_fonte_produto df_descargas
  | _ => mapa d_chave_primaria df_descargas
  end.

(** Row [i] of the transports was updated in stage [etapa] from the row [d]
    of the descargas: the run left the label of that stage on it, and [d] is
    what the stage found under the key of the row. *)
Definition atualizado_por (sc : Script) (df_transportes : list Transporte)
    (df_descargas : list Descarga) (etapa : Fonte) (i : nat) (d : Descarga) : Prop :=
  etapa <> NaoAtualizado /\
  exists t t',
    df_transportes !! i = Some t
    /\ (cruzar_e_atualizar_transportes sc df_transportes df_descargas).1.1 !! i = Some t'
    /\ fonte_atualizacao t' = etapa
    /\ mapa_da_etapa etapa df_descargas !! chave_de_busca sc etapa t = Some d.




(** ** Rows of the examples

    The shipment and the invoice of the specification's examples:
    invoice 123, product HIDRATADO, plate ABC1234. *)
Definition em_transito : str := cp "Em Tr" ++ [a_circ] ++ cp "nsito".

Definition viagem (nf : string) (st : str) (carregamento : option Z) : Transporte :=
  chaves_transporte
    {| nfe := VStr (cp nf); produto := VStr (cp "HIDRATADO");
       recebedor := VStr (cp "Acme"); cavalo := VStr (cp "ABC1234");
       status := st; data_de_carregamento := carregamento;
       data_chegada := None; data_descarga := None;
       chave_primaria := []; chave_placa_recebedor_produto := [];
       fonte_atualizacao := NaoAtualizado |}.

Definition nota_fiscal (nf pl : string) (emissao descarga : option Z) (indice : Z)
    : Descarga :=
  chaves_descarga
    {| nota := VStr (cp nf); d_produto := VStr (cp "Hidratado ");
       placa := VStr (cp pl); fonte_padronizada := VStr (cp "ACME");
       data := emissao; data_de_descarga := descarga;
       d_chave_primaria := []; chave_placa_fonte_produto := [];
       original_index := indice |}.


(** ** What [main] does with the result of the matcher *)

(** [df_transportes_final[df_transportes_final['fonte_atualizacao'] != 'Não Atualizado']] *)
Definition df_updates (df_transportes_final : list Transporte) : list Transporte :=
  List.filter (fun t => bool_decide (fonte_atualizacao t <> NaoAtualizado))
    df_transportes_final.

(** [(updates['status'] == s).sum()], the totals of the banner of
    [Drive_Sheets.py]. *)
Definition conta_status (s : str) (updates : list Transporte) : nat :=
  length (List.filter (fun t => bool_decide (status t = s)) updates).

(** The totals of the banner of [Capacidade.py]:
    [sum(v for k, v in contadores_detalhados.items() if '..._para_...' in k)]. *)
Definition total_t_ad (c : Contadores) : nat :=
  etapa1_transito_para_aguardando c + etapa2_transito_para_aguardando c.

Definition total_ad_d (c : Contadores) : nat :=
  etapa1_aguardando_para_descarregado c + etapa2_aguardando_para_descarregado c.

Definition total_t_d (c : Contadores) : nat :=
  etapa1_transito_para_descarregado c + etapa2_transito_para_descarregado c.

(** [df_descargas.drop(index=list(indices_usados))]: every row whose index
    label is listed is dropped; a label that is not in the index raises
    [KeyError], here [None]. *)
Definition drop_index (df_descargas : list Descarga) (labels : gset Z)
    : option (list Descarga) :=
  if bool_decide (labels ⊆ list_to_set (original_index <$> df_descargas)) then
    Some (List.filter (fun d => bool_decide (original_index d ∉ labels)) df_descargas)
  else None.

(** The branch of the update block taken for a row and its match, if any. *)
Definition transicao_de (sc : Script) (t : Transporte) (m : Descarga)
    : option Transicao :=
  let so := status_original sc t in
  let ns := novo_status m in
  if bool_decide (ns <> so) then
    if Py.contem transito so && bool_decide (ns = aguardando_descarga) then
      Some TransitoParaAguardando
    else if Py.contem transito so && bool_decide (ns = descarregado) then
      Some TransitoParaDescarregado
    else if Py.contem aguardando so && bool_decide (ns = descarregado) then
      Some AguardandoParaDescarregado
    else None
  else None.

(** The cells of a row the matcher never writes. *)
Definition celulas_fixas (t : Transporte)
    : valor * valor * valor * valor * option Z * str * str :=
  (nfe t, produto t, recebedor t, cavalo t, data_de_carregamento t,
   chave_primaria t, chave_placa_recebedor_produto t).


(** The total of one kind of transition over the two stages. *)
Definition total_de (k : Transicao) (c : Contadores) : nat :=
  match k with
  | TransitoParaAguardando => total_t_ad c
  | TransitoParaDescarregado => total_t_d c
  | AguardandoParaDescarregado => total_ad_d c
  end.

Global Instance Transicao_eq_dec : EqDecision Transicao.
Proof. solve_decision. Defined.

(** One if the branch taken is [k], zero otherwise. *)
Definition peso (k : Transicao) (o : option Transicao) : nat :=
  if bool_decide (o = Some k) then 1 else 0.

(** The branch taken for a row by each loop. *)
Definition transicao_etapa1 (sc : Script) (mapa_chaves : gmap str Descarga)
    (t : Transporte) : option Transicao :=
  match mapa_chaves !! chave_primaria t with
  | Some m => transicao_de sc t m
  | None => None
  end.

Definition transicao_etapa2 (sc : Script) (mapa_placa : gmap str Descarga)
    (t : Transporte) : option Transicao :=
  if bool_decide (fonte_atualizacao t = NaoAtualizado) then
    match mapa_placa !! chave_busca_placa sc t with
    | Some m => if data_valida t m then transicao_de sc t m else None
    | None => None
    end
  else None.

(** One if the row is in [df_updates] with the status [s], zero otherwise. *)
Definition atualizada_com (s : str) (t : Transporte) : nat :=
  if bool_decide (fonte_atualizacao t <> NaoAtualizado)
     && bool_decide (status t = s) then 1 else 0.


(** What [processar_dados_transportes] guarantees of a row: an included
    status, and the two key columns built from the cells of the row. *)
Definition linha_processada (t : Transporte) : Prop :=
  Py.lower (status t) ∈ (Py.lower <$> status_para_incluir)
  /\ chave_primaria t = chave (nfe t) (produto t) (recebedor t)
  /\ chave_placa_recebedor_produto t = chave (cavalo t) (produto t) (recebedor t).

(** ** The iterations of a run

    The iterations of the two loops, in the order in which they run: the
    rows of [transportes_atualizado.iterrows()] for the first loop, then the
    rows of [transportes_para_etapa_2.iterrows()], the rows that are
    ['Não Atualizado'] when the first loop has ended.  Each iteration carries
    the stage it belongs to, the index and the row read.  There is none
    after the early return. *)
Definition iteracoes (sc : Script) (df_transportes : list Transporte)
    (df_descargas : list Descarga) : list (Fonte * (nat * Transporte)) :=
  if bool_decide (df_transportes = []) || bool_decide (df_descargas = []) then []
  else
    let st0 := estado_inicial df_transportes in
    let st1 := etapa1 sc df_descargas st0 in
    (pair Etapa1ChavePrimaria <$> iterrows (transportes_atualizado st0))
    ++ (pair Etapa2Placa <$>
          List.filter
            (fun linha => bool_decide (fonte_atualizacao linha.2 = NaoAtualizado))
            (iterrows (transportes_atualizado st1))).

(** The body of the loop an iteration belongs to. *)
Definition passo (sc : Script) (df_descargas : list Descarga) (st : Estado)
    (it : Fonte * (nat * Transporte)) : Estado :=
  match it.1 with
  | Etapa2Placa =>
      etapa2_passo sc (mapa chave_placa_fonte_produto df_descargas) st it.2
  | _ => etapa1_passo sc (mapa d_chave_primaria df_descargas) st it.2
  end.

(** The state of the run when its first [k] iterations are done. *)
Definition estado_apos (sc : Script) (df_transportes : list Transporte)
    (df_descargas : list Descarga) (k : nat) : Estado :=
  foldl (passo sc df_descargas) (estado_inicial df_transportes)
    (take k (iteracoes sc df_transportes df_descargas)).

(** Iteration [k] writes row [i] of the frame: the row is not the same
    before and after the iteration. *)
Definition escreve (sc : Script) (df_transportes : list Transporte)
    (df_descargas : list Descarga) (k i : nat) : Prop :=
  transportes_atualizado (estado_apos sc df_transportes df_descargas (S k)) !! i
  <> transportes_atualizado (estado_apos sc df_transportes df_descargas k) !! i.

(** Row [i] is updated in iteration [k], an iteration of stage [etapa], from
    the row [d] of the descargas: the iteration writes row [i], and [d] is
    what the stage finds under the key of the row it read. *)
Definition atualizada_em (sc : Script) (df_transportes : list Transporte)
    (df_descargas : list Descarga) (k : nat) (etapa : Fonte) (i : nat)
    (d : Descarga) : Prop :=
  escreve sc df_transportes df_descargas k i
  /\ exists t,
       iteracoes sc df_transportes df_descargas !! k = Some (etapa, (i, t))
       /\ mapa_da_etapa etapa df_descargas !! chave_de_busca sc etapa t = Some d.

(** The row a stage leaves for the row it read. *)
Definition linha_da_etapa (sc : Script) (df_descargas : list Descarga)
    (etapa : Fonte) (t : Transporte) : Transporte :=
  match etapa with
  | Etapa2Placa => linha_etapa2 sc (mapa chave_placa_fonte_produto df_descargas) t
  | _ => linha_etapa1 sc (mapa d_chave_primaria df_descargas) t
  end.


(** ** Column letters

    [SharePointClient._convert_to_excel_col], the same loop in
    [Drive_Sheets.py], [Capacidade.py] and the SharePoint client of the
    other scripts:
    [while n >= 0: result = chr(n % 26 + ord('A')) + result; n = n // 26 - 1].
    The loop is a recursion on [n + 1]: [n // 26 - 1] is below [n] when
    [n >= 0]. *)
Definition convert_desce (n : Z) :
  (n >= 0)%Z -> Z.to_nat (n / 26 - 1 + 1) < Z.to_nat (n + 1).
Proof.
  intros H. assert (n / 26 <= n)%Z by (apply Z.div_le_upper_bound; lia). lia.
Qed.

Definition _convert_to_excel_col_loop : Z -> str -> str :=
  Fix (well_founded_ltof Z (fun n => Z.to_nat (n + 1))) (fun _ => str -> str)
    (fun n loop =>
       match Z_ge_dec n 0 with
       | left H =>
           fun result =>
             loop (n / 26 - 1)%Z (convert_desce n H)
               (Z.to_N (n mod 26 + 65) :: result)
       | right _ => fun result => result
       end).

Definition _convert_to_excel_col (n : Z) : str :=
  _convert_to_excel_col_loop n [].

(** An upper-case ASCII letter. *)
Definition is_AZ (c : N) : bool := ((0x41 <=? c) && (c <=? 0x5A))%N.

(** [Config.COLUNAS_TRANSPORTE] of the Transito and Programados scripts. *)
Definition COLUNAS_TRANSPORTE : list string :=
  [ "sm"; "data_prev_carregamento"; "expedidor"; "cidade_origem"; "ufo";
    "destinatario_venda"; "destinatario"; "recebedor"; "cidade_destino"; "ufd";
    "produto"; "motorista"; "cavalo"; "carreta1"; "carreta2"; "transportadora";
    "nfe"; "volume_l"; "data_de_carregamento"; "horario_de_carregamento";
    "data_chegada"; "data_descarga"; "status" ]%string.

(** [l.index(x)]: the first position of [x], [None] for [ValueError]. *)
Fixpoint index (x : string) (l : list string) : option nat :=
  match l with
  | [] => None
  | y :: r => if bool_decide (y = x) then Some 0 else S <$> index x r
  end.

(** [Config.get_col_letter]: [chr(65 + idx)], [None] when the name is not a
    column. *)
Definition get_col_letter (col_name : string) : option str :=
  (fun idx => [N.of_nat (65 + idx)]) <$> index col_name COLUNAS_TRANSPORTE.

(** ** The Bsoft merge: one invoice number, one trip

    The last step of [main] in the Transito script: the loop over the rows
    of [df_match] that writes the invoice number of a Bsoft row into a
    scheduled trip, guarded by the set [nfs_ja_usadas]. *)

(** A row of [df_match], as far as the loop reads it. *)
Record Match := {
  __ms_file_id_transp : str;
  __ms_sheet_name_transp : str;
  __excel_row_num_transp : Z;
  numero : str;
  bsoft_vol : str;
  bsoft_data : str;
  bsoft_hora : str
}.

(** One call [sp.update_excel_row(file_id, sheet_name, row_num, updates)],
    with the five entries of [updates]. *)
Record Escrita := {
  e_file_id : str;
  e_sheet_name : str;
  e_row_num : Z;
  e_nfe : str;
  e_volume_l : str;
  e_data_de_carregamento : str;
  e_horario_de_carregamento : str;
  e_status : str
}.

Definition EM_TRANSITO : str := cp "EM TR" ++ [0xC2%N] ++ cp "NSITO".

(** The state of the loop: the set [nfs_ja_usadas], the calls made so far
    and [count]. *)
Record EstadoBsoft := {
  nfs_ja_usadas : gset str;
  escritas : list Escrita;
  count : nat
}.

Definition escrita_de (row : Match) : Escrita :=
  {| e_file_id := __ms_file_id_transp row;
     e_sheet_name := __ms_sheet_name_transp row;
     e_row_num := __excel_row_num_transp row;
     e_nfe := numero row;
     e_volume_l := bsoft_vol row;
     e_data_de_carregamento := bsoft_data row;
     e_horario_de_carregamento := bsoft_hora row;
     e_status := EM_TRANSITO |}.

(** One iteration:
    [if file_id == bsoft_id or nova_nfe in nfs_ja_usadas: continue], then the
    call, [nfs_ja_usadas.add(nova_nfe)] and [count += 1]. *)
Definition bsoft_passo (bsoft_id : str) (st : EstadoBsoft) (row : Match)
    : EstadoBsoft :=
  let file_id := __ms_file_id_transp row in
  let nova_nfe := numero row in
  if bool_decide (file_id = bsoft_id)
     || bool_decide (nova_nfe ∈ nfs_ja_usadas st) then st
  else
    {| nfs_ja_usadas := {[ nova_nfe ]} ∪ nfs_ja_usadas st;
       escritas := escritas st ++ [escrita_de row];
       count := S (count st) |}.

(** [for _, row in df_match.iterrows(): ...], from the set built before the
    loop and [count = 0]. *)
Definition atualizar_do_bsoft (bsoft_id : str) (nfs : gset str)
    (df_match : list Match) : EstadoBsoft :=
  foldl (bsoft_passo bsoft_id)
    {| nfs_ja_usadas := nfs; escritas := []; count := 0 |} df_match.

(** * Properties *)

(** ** The key normaliser *)

Section Normalizador.
Local Open Scope N_scope.

Ltac em_prop :=
  rewrite ?orb_true_iff, ?andb_true_iff, ?orb_false_iff, ?andb_false_iff,
    ?negb_true_iff, ?negb_false_iff, ?N.leb_le, ?N.leb_gt, ?N.eqb_eq,
    ?N.eqb_neq in *.

(** The code points [lower_char] leaves alone. *)
Lemma lower_char_fixo c :
  ~ (0x41 <= c <= 0x5A) -> ~ (0xC0 <= c <= 0xDE /\ c <> 0xD7) ->
  c <> 0x130 -> c <> 0x178 -> c <> 0x1E9E -> c <> 0x212A -> c <> 0x212B ->
  Py.lower_char c = [c].
Proof.
  intros H1 H2 H3 H3' H4 H5 H6. unfold Py.lower_char.
  replace ((0x41 <=? c) && (c <=? 0x5A)) with false
    by (symmetry; em_prop; lia).
  replace ((0xC0 <=? c) && (c <=? 0xDE) && negb (c =? 0xD7)) with false
    by (symmetry; em_prop; lia).
  replace (c =? 0x130) with false by (symmetry; em_prop; lia).
  replace (c =? 0x178) with false by (symmetry; em_prop; lia).
  replace (c =? 0x1E9E) with false by (symmetry; em_prop; lia).
  replace (c =? 0x212A) with false by (symmetry; em_prop; lia).
  replace (c =? 0x212B) with false by (symmetry; em_prop; lia).
  done.
Qed.

Lemma space_lower_char c : Py.is_space c = true -> Py.lower_char c = [c].
Proof.
  unfold Py.is_space. intros H. em_prop. apply lower_char_fixo; lia.
Qed.

Lemma space_not_az09 c : Py.is_space c = true -> Py.is_az09 c = false.
Proof. unfold Py.is_space, Py.is_az09. intros H. em_prop. lia. Qed.

Lemma az09_lower_char c : Py.is_az09 c = true -> Py.lower_char c = [c].
Proof.
  unfold Py.is_az09. intros H. em_prop. apply lower_char_fixo; lia.
Qed.

Lemma lower_char_idem c :
  flat_map Py.lower_char (Py.lower_char c) = Py.lower_char c.
Proof.
  unfold Py.lower_char at 2 3.
  destruct ((0x41 <=? c) && (c <=? 0x5A)) eqn:E1.
  { em_prop. simpl. rewrite lower_char_fixo by lia. done. }
  destruct ((0xC0 <=? c) && (c <=? 0xDE) && negb (c =? 0xD7)) eqn:E2.
  { em_prop. simpl. rewrite lower_char_fixo by lia. done. }
  destruct (c =? 0x130) eqn:E3; [done|].
  destruct (c =? 0x178) eqn:E3'; [done|].
  destruct (c =? 0x1E9E) eqn:E4; [done|].
  destruct (c =? 0x212A) eqn:E5; [done|].
  destruct (c =? 0x212B) eqn:E6; [done|].
  em_prop. simpl. rewrite lower_char_fixo by lia. done.
Qed.

Lemma lower_app s t : Py.lower (s ++ t) = Py.lower s ++ Py.lower t.
Proof. apply flat_map_app. Qed.

Lemma lower_idem s : Py.lower (Py.lower s) = Py.lower s.
Proof.
  induction s as [|c s IH]; [done|].
  change (Py.lower (c :: s)) with (Py.lower_char c ++ Py.lower s).
  rewrite lower_app, IH. f_equal. apply lower_char_idem.
Qed.

Lemma sub_app s t :
  Py.sub_fora_az09 (s ++ t) = Py.sub_fora_az09 s ++ Py.sub_fora_az09 t.
Proof. apply List.filter_app. Qed.

(** White space contributes nothing to a key. *)
Lemma espacos_sem_chave ws :
  forallb Py.is_space ws = true -> Py.sub_fora_az09 (Py.lower ws) = [].
Proof.
  induction ws as [|c ws IH]; [done|]. simpl.
  intros [Hc Hws]%andb_prop.
  rewrite (space_lower_char _ Hc). simpl.
  rewrite (space_not_az09 _ Hc). auto.
Qed.

Lemma lstrip_decomp s :
  exists ws, s = ws ++ Py.lstrip s /\ forallb Py.is_space ws = true.
Proof.
  induction s as [|c s (ws & E & Hws)]; [by exists []|].
  simpl. destruct (Py.is_space c) eqn:Hc.
  - exists (c :: ws). simpl. rewrite Hc. split; [by f_equal|done].
  - by exists [].
Qed.

Lemma strip_decomp s :
  exists w1 w2, s = w1 ++ Py.strip s ++ w2
    /\ forallb Py.is_space w1 = true /\ forallb Py.is_space w2 = true.
Proof.
  destruct (lstrip_decomp s) as (w1 & E1 & H1).
  destruct (lstrip_decomp (rev (Py.lstrip s))) as (w & E2 & H2).
  exists w1, (rev w). split; [|split; [done|]].
  - rewrite E1 at 1. f_equal. unfold Py.strip, Py.rstrip.
    rewrite <- rev_app_distr, <- E2. by rewrite rev_involutive.
  - rewrite forallb_forall in *. intros x Hx. apply H2. by apply in_rev.
Qed.

(** [strip()] is invisible in the key. *)
Lemma chave_sem_strip s :
  Py.sub_fora_az09 (Py.lower (Py.strip s)) = Py.sub_fora_az09 (Py.lower s).
Proof.
  destruct (strip_decomp s) as (w1 & w2 & E & H1 & H2).
  rewrite E at 2.
  rewrite !lower_app, !sub_app.
  rewrite (espacos_sem_chave w1 H1), (espacos_sem_chave w2 H2).
  by rewrite app_nil_r.
Qed.

Lemma sub_so_az09 s : forallb Py.is_az09 (Py.sub_fora_az09 s) = true.
Proof.
  apply forallb_forall. intros c Hc. by apply List.filter_In in Hc as [_ ?].
Qed.

Lemma lower_az09 s : forallb Py.is_az09 s = true -> Py.lower s = s.
Proof.
  induction s as [|c s IH]; [done|]. simpl.
  intros [Hc Hs]%andb_prop.
  change (Py.lower (c :: s)) with (Py.lower_char c ++ Py.lower s).
  by rewrite (az09_lower_char _ Hc), IH.
Qed.

Lemma sub_az09 s : forallb Py.is_az09 s = true -> Py.sub_fora_az09 s = s.
Proof.
  induction s as [|c s IH]; [done|]. simpl.
  intros [Hc Hs]%andb_prop. rewrite Hc. by rewrite IH.
Qed.

(** Two texts that differ only in letter case, that is, with the same
    [lower()], have the same key. *)
Lemma chave_insensivel_a_caixa s t :
  Py.lower s = Py.lower t ->
  _normalizar_texto_para_chave (VStr s) = _normalizar_texto_para_chave (VStr t).
Proof.
  intros E. unfold _normalizar_texto_para_chave. simpl.
  by rewrite !chave_sem_strip, E.
Qed.

(** The key is the lowered text without the code points outside
    [a-z0-9]. *)
Lemma chave_de_texto v :
  _normalizar_texto_para_chave v = Py.sub_fora_az09 (Py.lower (py_str v)).
Proof. apply chave_sem_strip. Qed.

Lemma chave_idem v :
  _normalizar_texto_para_chave (VStr (_normalizar_texto_para_chave v))
  = _normalizar_texto_para_chave v.
Proof.
  rewrite (chave_de_texto (VStr _)). simpl.
  pose proof (sub_so_az09 (Py.lower (Py.strip (py_str v)))) as H.
  unfold _normalizar_texto_para_chave.
  by rewrite (lower_az09 _ H), (sub_az09 _ H).
Qed.

End Normalizador.

(** C2, as stated, fails: [None] gives the key [none] and NaN the key [nan],
    not the empty string; the key of [Hidratado] is in lower case; and the
    accented letter of [trânsito] is deleted, not replaced by its base
    letter. *)
Lemma C2_counterexample :
  _normalizar_texto_para_chave VNone = cp "none"
  /\ _normalizar_texto_para_chave VNone <> []
  /\ _normalizar_texto_para_chave VNaN = cp "nan"
  /\ _normalizar_texto_para_chave (VStr (cp "Hidratado")) = cp "hidratado"
  /\ maiusculo_alfanumerico (_normalizar_texto_para_chave (VStr (cp "Hidratado"))) = false
  /\ _normalizar_texto_para_chave (VStr (cp "tr" ++ [a_circ] ++ cp "nsito")) = cp "trnsito".
Proof. repeat split; try reflexivity. discriminate. Qed.

(** The normaliser of the Hidratado script gives upper case, and keeps the
    punctuation and the inner white space of an ASCII text (which NFKD
    leaves as it is). *)
Lemma normalizar_texto_exemplo (nfkd : str -> str) :
  nfkd (cp " Diesel S-10 ") = cp " Diesel S-10 " ->
  _normalizar_texto nfkd (VStr (cp " Diesel S-10 ")) = cp "DIESEL S-10".
Proof. unfold _normalizar_texto. simpl. by intros ->. Qed.

(** C2, amended: for every input the key normaliser returns a lower-case
    string made only of the characters [a-z] and [0-9]: the text of the
    input, lowered, with every other code point deleted (white space,
    punctuation and accented letters alike).  The empty string gives the
    empty string; [None] and NaN go through [str()] and give [none] and
    [nan].  The function is total and deterministic, as a function of the
    logic. *)
Theorem C2_normalizador (v : valor) :
  forallb Py.is_az09 (_normalizar_texto_para_chave v) = true
  /\ _normalizar_texto_para_chave v = Py.sub_fora_az09 (Py.lower (py_str v))
  /\ _normalizar_texto_para_chave (VStr []) = []
  /\ _normalizar_texto_para_chave VNone = cp "none"
  /\ _normalizar_texto_para_chave VNaN = cp "nan".
Proof.
  split; [apply sub_so_az09|]. split; [apply chave_de_texto|]. done.
Qed.

(** C8: the key normaliser is idempotent; lowering the letters of a text
    does not change its key (so two texts with the same [lower()] have the
    same key); white space around a text does not change its key; and the
    three spellings of the example have one key. *)
Theorem C8_idempotente_e_insensivel :
  (forall v, _normalizar_texto_para_chave (VStr (_normalizar_texto_para_chave v))
             = _normalizar_texto_para_chave v)
  /\ (forall s, _normalizar_texto_para_chave (VStr (Py.lower s))
                = _normalizar_texto_para_chave (VStr s))
  /\ (forall w1 w2 s,
        _normalizar_texto_para_chave
          (VStr (List.filter Py.is_space w1 ++ s ++ List.filter Py.is_space w2))
        = _normalizar_texto_para_chave (VStr s))
  /\ _normalizar_texto_para_chave (VStr (cp "Hidratado "))
     = _normalizar_texto_para_chave (VStr (cp "HIDRATADO"))
  /\ _normalizar_texto_para_chave (VStr (cp "HIDRATADO"))
     = _normalizar_texto_para_chave (VStr (cp "hidratado")).
Proof.
  split; [apply chave_idem|].
  split; [intros s; apply chave_insensivel_a_caixa, lower_idem|].
  split; [|done].
  intros w1 w2 s. rewrite !chave_de_texto. simpl.
  assert (Hsp : forall w, forallb Py.is_space (List.filter Py.is_space w) = true).
  { intros w. apply forallb_forall. intros c Hc.
    by apply List.filter_In in Hc as [_ ?]. }
  rewrite !lower_app, !sub_app.
  rewrite (espacos_sem_chave _ (Hsp w1)), (espacos_sem_chave _ (Hsp w2)).
  by rewrite app_nil_r.
Qed.

(** ** The loops as maps over the rows *)

Lemma alter_lookup {A} (f : A -> A) (l : list A) i x :
  l !! i = Some x -> alter f i l = <[i:=f x]> l.
Proof.
  revert i. induction l as [|y l IH]; intros [|i] H; simplify_eq/=; [done|].
  f_equal. by apply IH.
Qed.

(** [atualizar] writes the row [linha_atualizada] at [index] and nothing
    else. *)
Lemma atualizar_linhas sc etapa i t m st :
  transportes_atualizado st !! i = Some t ->
  transportes_atualizado (atualizar sc etapa i t m st)
  = <[i:=linha_atualizada sc etapa t m]> (transportes_atualizado st).
Proof.
  intros H. unfold atualizar, linha_atualizada.
  destruct (bool_decide _); [|by rewrite list_insert_id].
  repeat (destruct (_ && _));
    cbn [contar loc_set transportes_atualizado];
    rewrite ?list_alter_alter_eq;
    by rewrite (alter_lookup _ _ _ _ H).
Qed.

(** It leaves the set of used indices alone. *)
Lemma atualizar_usados sc etapa i t m st :
  indices_descargas_usados (atualizar sc etapa i t m st)
  = indices_descargas_usados st.
Proof.
  unfold atualizar.
  destruct (bool_decide _); [|done].
  by repeat (destruct (_ && _)).
Qed.

Lemma etapa1_passo_linhas sc mp st i t :
  transportes_atualizado st !! i = Some t ->
  transportes_atualizado (etapa1_passo sc mp st (i, t))
  = <[i:=linha_etapa1 sc mp t]> (transportes_atualizado st)
  /\ indices_descargas_usados (etapa1_passo sc mp st (i, t))
     = usado_etapa1 mp t ∪ indices_descargas_usados st.
Proof.
  intros H. unfold etapa1_passo, linha_etapa1, usado_etapa1.
  destruct (mp !! chave_primaria t) as [m|].
  - rewrite atualizar_linhas, atualizar_usados by done. done.
  - rewrite list_insert_id by done. split; [done|set_solver].
Qed.

Lemma etapa2_passo_linhas sc mp st i t :
  transportes_atualizado st !! i = Some t ->
  let st' := if bool_decide (fonte_atualizacao t = NaoAtualizado)
             then etapa2_passo sc mp st (i, t) else st in
  transportes_atualizado st' = <[i:=linha_etapa2 sc mp t]> (transportes_atualizado st)
  /\ indices_descargas_usados st'
     = usado_etapa2 sc mp t ∪ indices_descargas_usados st.
Proof.
  intros H. unfold etapa2_passo, linha_etapa2, usado_etapa2.
  destruct (bool_decide _); simpl;
    [|rewrite list_insert_id by done; split; [done|set_solver]].
  destruct (mp !! chave_busca_placa sc t) as [m|];
    [|rewrite list_insert_id by done; split; [done|set_solver]].
  destruct (data_valida t m);
    [|rewrite list_insert_id by done; split; [done|set_solver]].
  rewrite atualizar_linhas, atualizar_usados by done. done.
Qed.

(** A loop whose iteration on row [i] rewrites row [i] alone is a map. *)
Lemma foldl_linhas (passo : Estado -> nat * Transporte -> Estado)
    (g : Transporte -> Transporte) (u : Transporte -> gset Z) :
  (forall st i t, transportes_atualizado st !! i = Some t ->
     transportes_atualizado (passo st (i, t)) = <[i:=g t]> (transportes_atualizado st)
     /\ indices_descargas_usados (passo st (i, t))
        = u t ∪ indices_descargas_usados st) ->
  forall suf pre st,
    transportes_atualizado st = pre ++ suf ->
    transportes_atualizado
      (foldl passo st (imap (fun j => pair (length pre + j)) suf))
    = pre ++ (g <$> suf)
    /\ indices_descargas_usados
         (foldl passo st (imap (fun j => pair (length pre + j)) suf))
       = ⋃ (u <$> suf) ∪ indices_descargas_usados st.
Proof.
  intros Hp. induction suf as [|x suf IH]; intros pre st E.
  { simpl. rewrite E. split; [done|set_solver]. }
  rewrite imap_cons. simpl.
  assert (Hx : transportes_atualizado st !! (length pre + 0) = Some x).
  { rewrite E, Nat.add_0_r. by apply list_lookup_middle. }
  destruct (Hp _ _ _ Hx) as [E1 E2].
  specialize (IH (pre ++ [g x]) (passo st (length pre + 0, x))).
  rewrite (imap_ext _ (fun j => pair (length (pre ++ [g x]) + j))); last first.
  { intros j y _. simpl. f_equal. rewrite length_app. simpl. lia. }
  destruct IH as [I1 I2].
  { rewrite E1, E, insert_app_r. simpl. by rewrite <- app_assoc. }
  rewrite I1, I2, E2. split; [by rewrite <- app_assoc|set_solver].
Qed.

Lemma foldl_filter {A B} (f : B -> A -> B) (P : A -> bool) (l : list A) (b : B) :
  foldl f b (List.filter P l) = foldl (fun b x => if P x then f b x else b) b l.
Proof.
  revert b. induction l as [|x l IH]; intros b; [done|].
  simpl. destruct (P x); simpl; apply IH.
Qed.

Lemma iterrows_imap {A} (l : list A) :
  iterrows l = imap (fun j => pair (length (@nil A) + j)) l.
Proof. done. Qed.

(** The first loop. *)
Lemma etapa1_linhas sc ds st :
  transportes_atualizado (etapa1 sc ds st)
  = linha_etapa1 sc (mapa d_chave_primaria ds) <$> transportes_atualizado st
  /\ indices_descargas_usados (etapa1 sc ds st)
     = ⋃ (usado_etapa1 (mapa d_chave_primaria ds) <$> transportes_atualizado st)
       ∪ indices_descargas_usados st.
Proof.
  unfold etapa1. rewrite iterrows_imap.
  apply (foldl_linhas _ _ _ (etapa1_passo_linhas sc _) _ [] st). done.
Qed.

(** The second loop. *)
Lemma etapa2_linhas sc ds st :
  transportes_atualizado (etapa2 sc ds st)
  = linha_etapa2 sc (mapa chave_placa_fonte_produto ds) <$> transportes_atualizado st
  /\ indices_descargas_usados (etapa2 sc ds st)
     = ⋃ (usado_etapa2 sc (mapa chave_placa_fonte_produto ds)
            <$> transportes_atualizado st)
       ∪ indices_descargas_usados st.
Proof.
  unfold etapa2. rewrite foldl_filter, iterrows_imap.
  apply (foldl_linhas
           (fun st linha =>
              if bool_decide (fonte_atualizacao linha.2 = NaoAtualizado)
              then etapa2_passo sc _ st linha else st) _ _
           (etapa2_passo_linhas sc _) _ [] st).
  done.
Qed.

(** ** The index of a stage: the last row of each key *)

Section Indice.
Context {A : Type} (key : A -> str).

Lemma existsb_com_chave k (l : list A) :
  existsb (com_chave key k) l = false -> List.filter (com_chave key k) l = [].
Proof.
  induction l as [|y l IH]; [done|]. simpl.
  destruct (com_chave key k y); [done|]. apply IH.
Qed.

Lemma existsb_last k (l : list A) :
  existsb (com_chave key k) l = true ->
  is_Some (last (List.filter (com_chave key k) l)).
Proof.
  induction l as [|y l IH]; [done|]. simpl.
  destruct (com_chave key k y) eqn:E; simpl.
  - intros _. rewrite last_cons. destruct (last _); eauto.
  - apply IH.
Qed.

(** The index holds, for each key, the last row of the frame with that
    key. *)
Lemma mapa_lookup (df : list A) (k : str) :
  mapa key df !! k = last (List.filter (com_chave key k) df).
Proof.
  unfold mapa, to_dict. induction df as [|x r IH]; [done|].
  cbn [drop_duplicates_last List.filter].
  change (fun y => bool_decide (key y = key x)) with (com_chave key (key x)).
  destruct (existsb (com_chave key (key x)) r) eqn:Ex.
  - rewrite IH. destruct (com_chave key k x) eqn:Ek; [|done].
    apply bool_decide_eq_true in Ek as <-.
    rewrite last_cons. by destruct (existsb_last _ _ Ex) as [y ->].
  - rewrite fmap_cons. cbn [list_to_map foldr]. simpl.
    destruct (com_chave key k x) eqn:Ek.
    + apply bool_decide_eq_true in Ek as <-.
      rewrite lookup_insert_eq, last_cons.
      by rewrite (existsb_com_chave _ _ Ex).
    + apply bool_decide_eq_false in Ek. by rewrite lookup_insert_ne.
Qed.

Lemma last_filter_Some (P : A -> bool) (l : list A) (x : A) :
  last (List.filter P l) = Some x <->
  exists pre suf, l = pre ++ x :: suf /\ P x = true /\ List.filter P suf = [].
Proof.
  split.
  - induction l as [|y l IH]; [done|]. simpl.
    destruct (P y) eqn:Py.
    + rewrite last_cons. destruct (last (List.filter P l)) as [z|] eqn:E.
      * intros [= ->]. destruct (IH eq_refl) as (pre & suf & -> & ? & ?).
        by exists (y :: pre), suf.
      * intros [= ->]. exists [], l. split; [done|]. split; [done|].
        destruct (List.filter P l); [done|]. by rewrite last_cons in E; destruct (last _).
    + intros H. destruct (IH H) as (pre & suf & -> & ? & ?).
      by exists (y :: pre), suf.
  - intros (pre & suf & -> & Px & Hs).
    rewrite List.filter_app. simpl. rewrite Px, Hs.
    by rewrite last_snoc.
Qed.

(** A row found under a key carries that key and is a row of the frame. *)
Lemma mapa_Some (df : list A) (k : str) (x : A) :
  mapa key df !! k = Some x -> key x = k /\ x ∈ df.
Proof.
  rewrite mapa_lookup, last_filter_Some.
  intros (pre & suf & -> & Px & _). split.
  - by apply bool_decide_eq_true in Px.
  - set_solver.
Qed.

(** Every key of the frame is in the index. *)
Lemma mapa_elem (df : list A) (x : A) :
  x ∈ df -> is_Some (mapa key df !! key x).
Proof.
  intros Hx. rewrite mapa_lookup. apply existsb_last.
  apply existsb_exists. exists x. split; [by apply list_elem_of_In|].
  by apply bool_decide_eq_true.
Qed.

End Indice.

(** C6: when several rows of the descargas give the same key, primary or
    secondary, the index of that key holds the last of them in input order,
    and no other: the lookup of a key is the last row among those that carry
    it. *)
Theorem C6_ultimo_vence (df_descargas : list Descarga) (k : str) :
  mapa d_chave_primaria df_descargas !! k
  = last (List.filter (com_chave d_chave_primaria k) df_descargas)
  /\ mapa chave_placa_fonte_produto df_descargas !! k
     = last (List.filter (com_chave chave_placa_fonte_produto k) df_descargas).
Proof. split; apply mapa_lookup. Qed.

(** The example of the specification: two invoices with the key
    [abc1234_hidratado_acme], issued on days 10 and 11; the index keeps the
    second. *)
Example mapa_placa_exemplo :
  mapa chave_placa_fonte_produto
    [nota_fiscal "123" "ABC1234" (Some 10%Z) None 0;
     nota_fiscal "456" "ABC1234" (Some 11%Z) None 1]
  !! cp "abc1234_hidratado_acme"
  = Some (nota_fiscal "456" "ABC1234" (Some 11%Z) None 1).
Proof. by vm_compute. Qed.

(** ** The whole run *)

Lemma cruzar_nao_vazio sc ts ds :
  ts <> [] -> ds <> [] ->
  cruzar_e_atualizar_transportes sc ts ds
  = (transportes_atualizado (etapa2 sc ds (etapa1 sc ds (estado_inicial ts))),
     Some (contadores (etapa2 sc ds (etapa1 sc ds (estado_inicial ts)))),
     indices_descargas_usados (etapa2 sc ds (etapa1 sc ds (estado_inicial ts)))).
Proof.
  intros Ht Hd. unfold cruzar_e_atualizar_transportes.
  by rewrite (bool_decide_eq_false_2 _ Ht), (bool_decide_eq_false_2 _ Hd).
Qed.

(** What the first stage uses stays used. *)
Lemma etapa2_usados_mono sc ds st x :
  x ∈ indices_descargas_usados st ->
  x ∈ indices_descargas_usados (etapa2 sc ds st).
Proof. destruct (etapa2_linhas sc ds st) as [_ ->]. set_solver. Qed.

Lemma etapa1_usa sc ds st (t : Transporte) m :
  t ∈ transportes_atualizado st ->
  mapa d_chave_primaria ds !! chave_primaria t = Some m ->
  original_index m ∈ indices_descargas_usados (etapa1 sc ds st).
Proof.
  intros Ht Hm. destruct (etapa1_linhas sc ds st) as [_ ->].
  apply elem_of_union_l, elem_of_union_list.
  exists (usado_etapa1 (mapa d_chave_primaria ds) t). split.
  - apply list_elem_of_fmap. by exists t.
  - unfold usado_etapa1. rewrite Hm. set_solver.
Qed.

(** C4, as stated, fails when a later invoice carries the same key: the
    shipment 123 / HIDRATADO / Acme is matched, but against the invoice of
    index 1; the invoice of index 0, whose normalised document, product and
    counterparty are those of the shipment, is not marked as used. *)
Lemma C4_counterexample :
  let S := viagem "123" em_transito (Some 5%Z) in
  let I := nota_fiscal "123" "ABC1234" (Some 10%Z) None 0 in
  let I' := nota_fiscal "123" "XYZ9999" (Some 11%Z) None 1 in
  let r := cruzar_e_atualizar_transportes Drive_Sheets
             (processar_dados_transportes [S]) [I; I'] in
  S ∈ processar_dados_transportes [S]
  /\ _normalizar_texto_para_chave (nfe S) = _normalizar_texto_para_chave (nota I)
  /\ _normalizar_texto_para_chave (produto S) = _normalizar_texto_para_chave (d_produto I)
  /\ _normalizar_texto_para_chave (recebedor S)
     = _normalizar_texto_para_chave (fonte_padronizada I)
  /\ elements r.2 = [1%Z]
  /\ original_index I ∉ r.2.
Proof.
  cbv zeta. split; [vm_compute; by left|].
  do 3 (split; [by vm_compute|]).
  assert (E : elements
    (cruzar_e_atualizar_transportes Drive_Sheets
       (processar_dados_transportes [viagem "123" em_transito (Some 5%Z)])
       [nota_fiscal "123" "ABC1234" (Some 10%Z) None 0;
        nota_fiscal "123" "XYZ9999" (Some 11%Z) None 1]).2 = [1%Z])
    by (by vm_compute).
  split; [done|].
  rewrite <- elem_of_elements, E.
  change (0%Z ∉ [1%Z]). by intros H%list_elem_of_singleton.
Qed.

(** C4, amended: for a shipment S in an included status and an invoice I of
    the input with the same normalised document number, product and
    counterparty, the primary tier records a match for S with the last
    invoice of the input that carries the key of I, and that invoice is
    marked as used; it is I itself when no later invoice shares its key. *)
Theorem C4_etapa1_casa (sc : Script) (raw : list Transporte)
    (df_descargas : list Descarga) (S : Transporte) (I : Descarga) :
  S ∈ processar_dados_transportes raw ->
  I ∈ df_descargas ->
  d_chave_primaria I = chave (nota I) (d_produto I) (fonte_padronizada I) ->
  _normalizar_texto_para_chave (nfe S) = _normalizar_texto_para_chave (nota I) ->
  _normalizar_texto_para_chave (produto S) = _normalizar_texto_para_chave (d_produto I) ->
  _normalizar_texto_para_chave (recebedor S)
  = _normalizar_texto_para_chave (fonte_padronizada I) ->
  exists I',
    mapa d_chave_primaria df_descargas !! chave_primaria S = Some I'
    /\ last (List.filter (com_chave d_chave_primaria (d_chave_primaria I)) df_descargas)
       = Some I'
    /\ original_index I' ∈
       (cruzar_e_atualizar_transportes sc (processar_dados_transportes raw)
          df_descargas).2
    /\ (forall pre suf,
          df_descargas = pre ++ I :: suf ->
          List.filter (com_chave d_chave_primaria (d_chave_primaria I)) suf = [] ->
          I' = I).
Proof.
  intros HS HI HkI E1 E2 E3.
  assert (Hk : chave_primaria S = d_chave_primaria I).
  { unfold processar_dados_transportes in HS.
    apply list_elem_of_fmap in HS as (S0 & -> & _).
    rewrite HkI. simpl. unfold chave. simpl in E1, E2, E3.
    by rewrite E1, E2, E3. }
  destruct (mapa_elem d_chave_primaria _ _ HI) as [I' HI'].
  exists I'. rewrite Hk. split; [done|].
  split; [by rewrite <- mapa_lookup|]. split.
  - rewrite cruzar_nao_vazio.
    + simpl. apply etapa2_usados_mono.
      eapply (etapa1_usa _ _ _ (set_fonte_atualizacao NaoAtualizado S)).
      * simpl. apply list_elem_of_fmap. by exists S.
      * simpl. by rewrite Hk.
    + intros E. rewrite E in HS. by apply elem_of_nil in HS.
    + intros E. rewrite E in HI. by apply elem_of_nil in HI.
  - intros pre suf -> Hsuf.
    rewrite mapa_lookup, List.filter_app in HI'. simpl in HI'.
    unfold com_chave at 2 in HI'. rewrite bool_decide_eq_true_2 in HI' by done.
    rewrite Hsuf, last_snoc in HI'. congruence.
Qed.

Lemma C4_etapa1_casa_witness :
  exists I',
    mapa d_chave_primaria [nota_fiscal "123" "ABC1234" (Some 10%Z) None 0]
      !! chave_primaria (viagem "123" em_transito (Some 5%Z)) = Some I'
    /\ original_index I' ∈
       (cruzar_e_atualizar_transportes Drive_Sheets
          (processar_dados_transportes [viagem "123" em_transito (Some 5%Z)])
          [nota_fiscal "123" "ABC1234" (Some 10%Z) None 0]).2.
Proof.
  destruct (C4_etapa1_casa Drive_Sheets
              [viagem "123" em_transito (Some 5%Z)]
              [nota_fiscal "123" "ABC1234" (Some 10%Z) None 0]
              (viagem "123" em_transito (Some 5%Z))
              (nota_fiscal "123" "ABC1234" (Some 10%Z) None 0))
    as (I' & H1 & _ & H3 & _).
  - vm_compute. by left.
  - by left.
  - reflexivity.
  - reflexivity.
  - reflexivity.
  - reflexivity.
  - exists I'. split; [exact H1 | exact H3].
Defined.

(** ** The row written on a match *)

Lemma novo_status_sem_transito m : Py.contem transito (novo_status m) = false.
Proof. unfold novo_status. by destruct (data_de_descarga m). Qed.

Lemma transito_muda sc t m :
  Py.contem transito (status_original sc t) = true ->
  novo_status m <> status_original sc t.
Proof.
  intros H E. rewrite <- E, novo_status_sem_transito in H. discriminate.
Qed.

Lemma aguardando_muda sc t m x :
  Py.contem aguardando (status_original sc t) = true ->
  data_de_descarga m = Some x ->
  novo_status m <> status_original sc t.
Proof.
  intros H Hx E. rewrite <- E in H. unfold novo_status in H.
  rewrite Hx in H. discriminate.
Qed.

Lemma novo_status_None m :
  data_de_descarga m = None -> novo_status m = aguardando_descarga.
Proof. unfold novo_status. by intros ->. Qed.

Lemma novo_status_Some m x :
  data_de_descarga m = Some x -> novo_status m = descarregado.
Proof. unfold novo_status. by intros ->. Qed.

(** A status in transit: the row goes to AGUARDANDO DESCARGA or to
    DESCARREGADO, as the unloading date of the match is absent or present. *)
Lemma linha_atualizada_transito sc etapa t m :
  Py.contem transito (status_original sc t) = true ->
  linha_atualizada sc etapa t m
  = match data_de_descarga m with
    | None =>
        set_status AGUARDANDO_DESCARGA
          (set_fonte_atualizacao etapa (set_data_chegada (data m) t))
    | Some x =>
        set_data_descarga (Some x)
          (set_status DESCARREGADO
             (set_fonte_atualizacao etapa (set_data_chegada (data m) t)))
    end.
Proof.
  intros H. unfold linha_atualizada.
  rewrite (bool_decide_eq_true_2 _ (transito_muda sc t m H)), H.
  destruct (data_de_descarga m) as [x|] eqn:E.
  - by rewrite (novo_status_Some _ _ E).
  - by rewrite (novo_status_None _ E).
Qed.

(** A status that waits, not in transit, and an unloading date: the row
    goes to DESCARREGADO. *)
Lemma linha_atualizada_aguardando sc etapa t m x :
  Py.contem transito (status_original sc t) = false ->
  Py.contem aguardando (status_original sc t) = true ->
  data_de_descarga m = Some x ->
  linha_atualizada sc etapa t m
  = set_data_descarga (Some x)
      (set_status DESCARREGADO
         (set_fonte_atualizacao etapa (set_data_chegada (data m) t))).
Proof.
  intros H1 H2 E. unfold linha_atualizada.
  rewrite (bool_decide_eq_true_2 _ (aguardando_muda sc t m x H2 E)), H1, H2.
  by rewrite (novo_status_Some _ _ E), E.
Qed.

(** Any other case keeps the status and the unloading date of the row. *)
Lemma linha_atualizada_conserva sc etapa t m :
  Py.contem transito (status_original sc t) = false ->
  Py.contem aguardando (status_original sc t) = false
  \/ data_de_descarga m = None ->
  status (linha_atualizada sc etapa t m) = status t
  /\ data_descarga (linha_atualizada sc etapa t m) = data_descarga t.
Proof.
  intros H1 H2. unfold linha_atualizada.
  destruct (bool_decide _); [|done]. rewrite H1. simpl.
  destruct H2 as [H2|H2].
  - by rewrite H2.
  - rewrite (novo_status_None _ H2).
    by destruct (Py.contem aguardando _).
Qed.

(** The new status is the status the row has: nothing is written. *)
Lemma linha_atualizada_igual sc etapa t m :
  novo_status m = status_original sc t -> linha_atualizada sc etapa t m = t.
Proof.
  intros E. unfold linha_atualizada.
  by rewrite bool_decide_eq_false_2 by (intros H; by apply H).
Qed.

(** The rows after each loop. *)
Lemma etapa1_lookup sc ds st i t :
  transportes_atualizado st !! i = Some t ->
  transportes_atualizado (etapa1 sc ds st) !! i
  = Some (linha_etapa1 sc (mapa d_chave_primaria ds) t).
Proof.
  intros H. destruct (etapa1_linhas sc ds st) as [-> _].
  by rewrite list_lookup_fmap, H.
Qed.

Lemma etapa2_lookup sc ds st i t :
  transportes_atualizado st !! i = Some t ->
  transportes_atualizado (etapa2 sc ds st) !! i
  = Some (linha_etapa2 sc (mapa chave_placa_fonte_produto ds) t).
Proof.
  intros H. destruct (etapa2_linhas sc ds st) as [-> _].
  by rewrite list_lookup_fmap, H.
Qed.

(** The indices the second loop adds. *)
Lemma etapa2_usados sc ds st x :
  x ∈ indices_descargas_usados (etapa2 sc ds st) <->
  x ∈ indices_descargas_usados st
  \/ exists j t m,
       transportes_atualizado st !! j = Some t
       /\ fonte_atualizacao t = NaoAtualizado
       /\ mapa chave_placa_fonte_produto ds !! chave_busca_placa sc t = Some m
       /\ data_valida t m = true
       /\ x = original_index m.
Proof.
  destruct (etapa2_linhas sc ds st) as [_ ->].
  rewrite elem_of_union, elem_of_union_list. split.
  - intros [(X & HX & Hx)|?]; [|by left]. right.
    apply list_elem_of_fmap in HX as (t & -> & Ht).
    apply list_elem_of_lookup in Ht as [j Hj].
    unfold usado_etapa2 in Hx.
    destruct (bool_decide_reflect (fonte_atualizacao t = NaoAtualizado));
      [|set_solver].
    destruct (mapa _ _ !! _) as [m|] eqn:Em; [|set_solver].
    destruct (data_valida t m) eqn:Ed; [|set_solver].
    exists j, t, m. set_solver.
  - intros [?|(j & t & m & Hj & Hf & Em & Ed & ->)]; [by right|]. left.
    exists (usado_etapa2 sc (mapa chave_placa_fonte_produto ds) t). split.
    + apply list_elem_of_fmap. exists t. split; [done|].
      by eapply list_elem_of_lookup_2.
    + unfold usado_etapa2.
      rewrite bool_decide_eq_true_2, Em, Ed by done. set_solver.
Qed.

Lemma data_valida_true t m :
  data_valida t m = true <->
  exists c e, data_de_carregamento t = Some c /\ data m = Some e /\ (c <= e)%Z.
Proof.
  unfold data_valida. split.
  - destruct (data_de_carregamento t) as [c|]; [|done].
    destruct (data m) as [e|]; [|done].
    intros H%Z.leb_le. eauto.
  - intros (c & e & -> & -> & H). by apply Z.leb_le.
Qed.

(** ** The status update *)

(** C3, as stated, fails on the statuses the update block does not name.  A
    shipment in the included status [Aguardando By Pass], matched with an
    invoice without unloading date, keeps its status although the arrival
    date and the label of the stage are written.  The shipment of the
    specification's example, with status [Programado], is dropped by
    [processar_dados_transportes]; handed to the matcher all the same, it
    keeps its status, with or without unloading date, and in the second
    case the unloading date is not copied. *)
Lemma C3_counterexample :
  let r := cruzar_e_atualizar_transportes Drive_Sheets
             (processar_dados_transportes
                [viagem "123" (cp "Aguardando By Pass") (Some 5%Z)])
             [nota_fiscal "123" "ABC1234" (Some 10%Z) None 7] in
  let p := cruzar_e_atualizar_transportes Drive_Sheets
             [viagem "123" (cp "Programado") (Some 5%Z)]
             [nota_fiscal "123" "ABC1234" (Some 10%Z) None 7] in
  let q := cruzar_e_atualizar_transportes Drive_Sheets
             [viagem "123" (cp "Programado") (Some 5%Z)]
             [nota_fiscal "123" "ABC1234" (Some 10%Z) (Some 12%Z) 7] in
  (status <$> r.1.1 = [cp "Aguardando By Pass"]
   /\ data_chegada <$> r.1.1 = [Some 10%Z]
   /\ fonte_atualizacao <$> r.1.1 = [Etapa1ChavePrimaria])
  /\ processar_dados_transportes [viagem "123" (cp "Programado") (Some 5%Z)] = []
  /\ (status <$> p.1.1 = [cp "Programado"]
      /\ fonte_atualizacao <$> p.1.1 = [Etapa1ChavePrimaria])
  /\ (status <$> q.1.1 = [cp "Programado"]
      /\ data_descarga <$> q.1.1 = [None]
      /\ fonte_atualizacao <$> q.1.1 = [Etapa1ChavePrimaria]).
Proof. cbv zeta. repeat split; by vm_compute. Qed.

(** C3, amended: for a shipment matched in either stage the update depends
    on its status and on the unloading date of the matched invoice.  A status
    that contains [trânsito] becomes AGUARDANDO DESCARGA, with the arrival
    date set from the invoice date, when the unloading date is absent, and
    DESCARREGADO, with the unloading date copied (and the arrival date set),
    when it is present.  A status that contains [aguardando] and not
    [trânsito] becomes DESCARREGADO, with the unloading date copied, when
    the unloading date is present.  In every other case the status and the
    unloading date of the shipment are kept. *)
Theorem C3_transicao (sc : Script) (df_descargas : list Descarga) (st : Estado)
    (i : nat) (t t' : Transporte) (m : Descarga) :
  transportes_atualizado st !! i = Some t ->
  (mapa d_chave_primaria df_descargas !! chave_primaria t = Some m
   /\ transportes_atualizado (etapa1 sc df_descargas st) !! i = Some t')
  \/ (fonte_atualizacao t = NaoAtualizado
      /\ mapa chave_placa_fonte_produto df_descargas !! chave_busca_placa sc t = Some m
      /\ data_valida t m = true
      /\ transportes_atualizado (etapa2 sc df_descargas st) !! i = Some t') ->
  (Py.contem transito (status_original sc t) = true ->
     match data_de_descarga m with
     | None =>
         status t' = AGUARDANDO_DESCARGA /\ data_chegada t' = data m
         /\ data_descarga t' = data_descarga t
     | Some x =>
         status t' = DESCARREGADO /\ data_descarga t' = Some x
         /\ data_chegada t' = data m
     end)
  /\ (Py.contem transito (status_original sc t) = false ->
      Py.contem aguardando (status_original sc t) = true ->
      forall x, data_de_descarga m = Some x ->
        status t' = DESCARREGADO /\ data_descarga t' = Some x
        /\ data_chegada t' = data m)
  /\ (Py.contem transito (status_original sc t) = false ->
      Py.contem aguardando (status_original sc t) = false
      \/ data_de_descarga m = None ->
      status t' = status t /\ data_descarga t' = data_descarga t).
Proof.
  intros Hi H.
  assert (exists etapa, t' = linha_atualizada sc etapa t m) as [etapa ->].
  { destruct H as [[Hm H]|(Hf & Hm & Hd & H)].
    - rewrite (etapa1_lookup _ _ _ _ _ Hi) in H. injection H as <-.
      exists Etapa1ChavePrimaria. unfold linha_etapa1. by rewrite Hm.
    - rewrite (etapa2_lookup _ _ _ _ _ Hi) in H. injection H as <-.
      exists Etapa2Placa. unfold linha_etapa2.
      by rewrite bool_decide_eq_true_2, Hm, Hd. }
  split; [|split].
  - intros Ht. rewrite (linha_atualizada_transito _ _ _ _ Ht).
    by destruct (data_de_descarga m).
  - intros Ht Ha x Hx.
    by rewrite (linha_atualizada_aguardando _ _ _ _ _ Ht Ha Hx).
  - intros Ht Ho. by apply linha_atualizada_conserva.
Qed.

Lemma C3_transicao_witness :
  status (linha_atualizada Drive_Sheets Etapa1ChavePrimaria
            (viagem "123" em_transito (Some 5%Z))
            (nota_fiscal "123" "ABC1234" (Some 10%Z) None 7))
  = AGUARDANDO_DESCARGA
  /\ data_chegada (linha_atualizada Drive_Sheets Etapa1ChavePrimaria
                     (viagem "123" em_transito (Some 5%Z))
                     (nota_fiscal "123" "ABC1234" (Some 10%Z) None 7))
     = Some 10%Z.
Proof.
  pose proof (C3_transicao Drive_Sheets
                [nota_fiscal "123" "ABC1234" (Some 10%Z) None 7]
                (estado_inicial [viagem "123" em_transito (Some 5%Z)]) 0
                (viagem "123" em_transito (Some 5%Z))
                (linha_atualizada Drive_Sheets Etapa1ChavePrimaria
                   (viagem "123" em_transito (Some 5%Z))
                   (nota_fiscal "123" "ABC1234" (Some 10%Z) None 7))
                (nota_fiscal "123" "ABC1234" (Some 10%Z) None 7)
                eq_refl) as H.
  destruct H as [H _].
  - left. split; by vm_compute.
  - destruct (H eq_refl) as (H1 & H2 & _). split; [exact H1 | exact H2].
Defined.

(** C10: when the lookup of a stage finds an invoice and the new status is
    the status the shipment has, no column of the shipment row is written,
    and the index of the invoice is added to the set of used indices all the
    same.  (In the second stage the new status is computed once the date
    test has passed.) *)
Theorem C10_sem_mudanca (sc : Script) (df_descargas : list Descarga) (st : Estado)
    (i : nat) (t : Transporte) (m : Descarga) :
  transportes_atualizado st !! i = Some t ->
  novo_status m = status_original sc t ->
  (mapa d_chave_primaria df_descargas !! chave_primaria t = Some m ->
     transportes_atualizado (etapa1 sc df_descargas st) !! i = Some t
     /\ original_index m ∈ indices_descargas_usados (etapa1 sc df_descargas st))
  /\ (fonte_atualizacao t = NaoAtualizado ->
      mapa chave_placa_fonte_produto df_descargas !! chave_busca_placa sc t = Some m ->
      data_valida t m = true ->
      transportes_atualizado (etapa2 sc df_descargas st) !! i = Some t
      /\ original_index m ∈ indices_descargas_usados (etapa2 sc df_descargas st)).
Proof.
  intros Hi Hn. split.
  - intros Hm. split.
    + rewrite (etapa1_lookup _ _ _ _ _ Hi). unfold linha_etapa1.
      by rewrite Hm, linha_atualizada_igual.
    + eapply etapa1_usa; [|done]. by eapply list_elem_of_lookup_2.
  - intros Hf Hm Hd. split.
    + rewrite (etapa2_lookup _ _ _ _ _ Hi). unfold linha_etapa2.
      by rewrite bool_decide_eq_true_2, Hm, Hd, linha_atualizada_igual.
    + apply etapa2_usados. right. by exists i, t, m.
Qed.

Lemma C10_sem_mudanca_witness :
  let t := set_fonte_atualizacao NaoAtualizado
             (viagem "123" (cp "Aguardando Descarga") (Some 5%Z)) in
  let ds := [nota_fiscal "123" "ABC1234" (Some 10%Z) None 7] in
  transportes_atualizado (etapa1 Drive_Sheets ds (estado_inicial [t])) !! 0 = Some t
  /\ 7%Z ∈ indices_descargas_usados (etapa1 Drive_Sheets ds (estado_inicial [t])).
Proof.
  cbv zeta.
  exact (proj1 (C10_sem_mudanca Drive_Sheets
                  [nota_fiscal "123" "ABC1234" (Some 10%Z) None 7]
                  (estado_inicial
                     [set_fonte_atualizacao NaoAtualizado
                        (viagem "123" (cp "Aguardando Descarga") (Some 5%Z))])
                  0
                  (set_fonte_atualizacao NaoAtualizado
                     (viagem "123" (cp "Aguardando Descarga") (Some 5%Z)))
                  (nota_fiscal "123" "ABC1234" (Some 10%Z) None 7)
                  eq_refl eq_refl)
           eq_refl).
Defined.

(** ** The date test of the second stage *)

(** C5: in the second stage, when the lookup of a shipment finds an invoice,
    a match is recorded only if the issue date of the invoice is not earlier
    than the loading date of the shipment: an invoice issued earlier leaves
    the row as it was, a row that changed had an invoice issued on or after
    its loading date, and every index the stage adds to the used set comes
    from such a pair. *)
Theorem C5_data_de_emissao (sc : Script) (df_descargas : list Descarga)
    (st : Estado) (i : nat) (t : Transporte) (m : Descarga) :
  transportes_atualizado st !! i = Some t ->
  mapa chave_placa_fonte_produto df_descargas !! chave_busca_placa sc t = Some m ->
  (forall c e, data_de_carregamento t = Some c -> data m = Some e -> (e < c)%Z ->
     transportes_atualizado (etapa2 sc df_descargas st) !! i = Some t)
  /\ (transportes_atualizado (etapa2 sc df_descargas st) !! i <> Some t ->
      exists c e, data_de_carregamento t = Some c /\ data m = Some e /\ (c <= e)%Z)
  /\ (forall x, x ∈ indices_descargas_usados (etapa2 sc df_descargas st) ->
      x ∈ indices_descargas_usados st
      \/ exists j t' m' c e,
           transportes_atualizado st !! j = Some t'
           /\ mapa chave_placa_fonte_produto df_descargas
                !! chave_busca_placa sc t' = Some m'
           /\ data_de_carregamento t' = Some c /\ data m' = Some e /\ (c <= e)%Z
           /\ x = original_index m').
Proof.
  intros Hi Hm.
  rewrite (etapa2_lookup _ _ _ _ _ Hi). unfold linha_etapa2. rewrite Hm.
  split; [|split].
  - intros c e Hc He Hlt. destruct (bool_decide _); [|done].
    unfold data_valida. rewrite Hc, He.
    by rewrite (proj2 (Z.leb_gt c e) Hlt).
  - intros Hne. destruct (bool_decide _); [|done].
    destruct (data_valida t m) eqn:Hd; [|done].
    by apply data_valida_true.
  - intros x [?|(j & t' & m' & Hj & _ & Hm' & Hd & ->)]%etapa2_usados; [by left|].
    right. apply data_valida_true in Hd as (c & e & ? & ? & ?).
    by exists j, t', m', c, e.
Qed.

Lemma C5_data_de_emissao_witness :
  let t := set_fonte_atualizacao NaoAtualizado
             (viagem "999" em_transito (Some 20%Z)) in
  let ds := [nota_fiscal "123" "ABC1234" (Some 10%Z) None 7] in
  mapa chave_placa_fonte_produto ds !! chave_busca_placa Drive_Sheets t
  = Some (nota_fiscal "123" "ABC1234" (Some 10%Z) None 7)
  /\ transportes_atualizado (etapa2 Drive_Sheets ds (estado_inicial [t])) !! 0
     = Some t.
Proof.
  cbv zeta. split; [reflexivity|].
  refine (proj1 (C5_data_de_emissao Drive_Sheets
                   [nota_fiscal "123" "ABC1234" (Some 10%Z) None 7]
                   (estado_inicial
                      [set_fonte_atualizacao NaoAtualizado
                         (viagem "999" em_transito (Some 20%Z))])
                   0
                   (set_fonte_atualizacao NaoAtualizado
                      (viagem "999" em_transito (Some 20%Z)))
                   (nota_fiscal "123" "ABC1234" (Some 10%Z) None 7)
                   eq_refl eq_refl)
            20%Z 10%Z eq_refl eq_refl _).
  reflexivity.
Defined.

(** C9: a shipment whose loading date is missing (NaT after the parsing
    with [errors='coerce']) is never matched by the second stage, whatever
    the invoices: its row is left as it was, and every index the stage adds
    to the used set comes from a shipment that has a loading date. *)
Theorem C9_sem_data_de_carregamento (sc : Script) (df_descargas : list Descarga)
    (st : Estado) (i : nat) (t : Transporte) :
  transportes_atualizado st !! i = Some t ->
  data_de_carregamento t = None ->
  transportes_atualizado (etapa2 sc df_descargas st) !! i = Some t
  /\ (forall x, x ∈ indices_descargas_usados (etapa2 sc df_descargas st) ->
      x ∈ indices_descargas_usados st
      \/ exists j t' m,
           transportes_atualizado st !! j = Some t'
           /\ data_de_carregamento t' <> None
           /\ mapa chave_placa_fonte_produto df_descargas
                !! chave_busca_placa sc t' = Some m
           /\ x = original_index m).
Proof.
  intros Hi Hc. split.
  - rewrite (etapa2_lookup _ _ _ _ _ Hi). unfold linha_etapa2.
    destruct (bool_decide _); [|done].
    destruct (mapa _ _ !! _) as [m|]; [|done].
    unfold data_valida. by rewrite Hc.
  - intros x [?|(j & t' & m & Hj & _ & Hm & Hd & ->)]%etapa2_usados; [by left|].
    right. exists j, t', m. split; [done|]. split; [|done].
    apply data_valida_true in Hd as (c & e & -> & _). done.
Qed.

Lemma C9_sem_data_de_carregamento_witness :
  let t := set_fonte_atualizacao NaoAtualizado (viagem "999" em_transito None) in
  let ds := [nota_fiscal "123" "ABC1234" (Some 10%Z) None 7] in
  mapa chave_placa_fonte_produto ds !! chave_busca_placa Drive_Sheets t
  = Some (nota_fiscal "123" "ABC1234" (Some 10%Z) None 7)
  /\ transportes_atualizado (etapa2 Drive_Sheets ds (estado_inicial [t])) !! 0
     = Some t.
Proof.
  cbv zeta. split; [reflexivity|].
  exact (proj1 (C9_sem_data_de_carregamento Drive_Sheets
                  [nota_fiscal "123" "ABC1234" (Some 10%Z) None 7]
                  (estado_inicial
                     [set_fonte_atualizacao NaoAtualizado
                        (viagem "999" em_transito None)])
                  0
                  (set_fonte_atualizacao NaoAtualizado
                     (viagem "999" em_transito None))
                  eq_refl eq_refl)).
Defined.

(** ** The rows of a whole run *)


(** A row written by [atualizar] carries the label of the stage. *)
Lemma linha_atualizada_fonte sc etapa t m :
  linha_atualizada sc etapa t m = t
  \/ fonte_atualizacao (linha_atualizada sc etapa t m) = etapa.
Proof.
  unfold linha_atualizada. destruct (bool_decide _); [|by left].
  right. by repeat (destruct (_ && _)).
Qed.

(** Row [i] of the result: the row of the second stage applied to the row of
    the first, or the untouched input of the early return of
    [Capacidade.py]. *)
Lemma cruzar_lookup sc ts ds i t :
  ts !! i = Some t ->
  (cruzar_e_atualizar_transportes sc ts ds).1.1 !! i
  = Some (linha_etapa2 sc (mapa chave_placa_fonte_produto ds)
            (linha_etapa1 sc (mapa d_chave_primaria ds)
               (set_fonte_atualizacao NaoAtualizado t)))
  \/ (ds = [] /\ (cruzar_e_atualizar_transportes sc ts ds).1.1 !! i = Some t).
Proof.
  intros Hi.
  assert (Hts : ts <> []) by (intros ->; done).
  destruct ds as [|d ds].
  - unfold cruzar_e_atualizar_transportes.
    rewrite (bool_decide_eq_false_2 _ Hts). simpl.
    destruct sc; simpl; [left|by right].
    by rewrite list_lookup_fmap, Hi.
  - left. rewrite cruzar_nao_vazio by done. simpl.
    erewrite etapa2_lookup; [done|].
    erewrite etapa1_lookup; [done|].
    simpl. by rewrite list_lookup_fmap, Hi.
Qed.

Lemma linha_etapa2_casos sc mp t :
  linha_etapa2 sc mp t = t
  \/ exists m,
       mp !! chave_busca_placa sc t = Some m
       /\ data_valida t m = true
       /\ linha_etapa2 sc mp t = linha_atualizada sc Etapa2Placa t m
       /\ fonte_atualizacao (linha_atualizada sc Etapa2Placa t m) = Etapa2Placa.
Proof.
  unfold linha_etapa2.
  destruct (bool_decide _); [|by left].
  destruct (mp !! chave_busca_placa sc t) as [m|]; [|by left].
  destruct (data_valida t m) eqn:Ed; [|by left].
  destruct (linha_atualizada_fonte sc Etapa2Placa t m) as [E|E].
  - left. by rewrite E.
  - right. by exists m.
Qed.

Lemma linha_etapa2_feita sc mp t :
  fonte_atualizacao t <> NaoAtualizado -> linha_etapa2 sc mp t = t.
Proof.
  intros H. unfold linha_etapa2. by rewrite bool_decide_eq_false_2.
Qed.




(** ** The status read through white space

    [Capacidade.py] strips the status before it looks for ['trânsito'] and
    ['aguardando'] in it; a text without white space is in the stripped
    status when it is in the status. *)













(** ** One invoice, several shipments *)

Lemma NoDup_fmap_inj {A B} (f : A -> B) (l : list A) (x y : A) :
  NoDup (f <$> l) -> x ∈ l -> y ∈ l -> f x = f y -> x = y.
Proof.
  induction l as [|z l IH]; [by intros _ ?%elem_of_nil|].
  rewrite fmap_cons, NoDup_cons.
  intros [Hz Hl] [->|Hx]%elem_of_cons [->|Hy]%elem_of_cons E; auto.
  - exfalso. apply Hz. rewrite E. apply list_elem_of_fmap. by exists y.
  - exfalso. apply Hz. rewrite <- E. apply list_elem_of_fmap. by exists x.
Qed.

Lemma mapa_da_etapa_Some etapa ds k d :
  mapa_da_etapa etapa ds !! k = Some d ->
  d ∈ ds
  /\ k = match etapa with
         | Etapa2Placa => chave_placa_fonte_produto d
         | _ => d_chave_primaria d
         end.
Proof.
  destruct etapa; simpl; intros [<- ?]%mapa_Some; done.
Qed.

(** ** One update per row *)

(** A loop over rows with distinct indices, each the current row of the
    frame, whose iteration on row [i] rewrites row [i] alone: a row that is
    not iterated is kept, an iterated row [t] becomes [g t]. *)
Lemma foldl_escritas (f : Estado -> nat * Transporte -> Estado)
    (g : Transporte -> Transporte) (its : list (nat * Transporte)) :
  forall st,
    (forall st i t, (i, t) ∈ its -> transportes_atualizado st !! i = Some t ->
       transportes_atualizado (f st (i, t))
       = <[i:=g t]> (transportes_atualizado st)) ->
    NoDup (its.*1) ->
    (forall i t, (i, t) ∈ its -> transportes_atualizado st !! i = Some t) ->
    (forall j, j ∉ its.*1 ->
       transportes_atualizado (foldl f st its) !! j = transportes_atualizado st !! j)
    /\ (forall j t, (j, t) ∈ its ->
          transportes_atualizado (foldl f st its) !! j = Some (g t)).
Proof.
  induction its as [|[i t] r IH]; intros st Hf Hnd Hst.
  { split; [done|]. by intros j t ?%elem_of_nil. }
  rewrite fmap_cons in Hnd. apply NoDup_cons in Hnd as [Hi Hnd]. simpl in Hi.
  assert (Hit : transportes_atualizado st !! i = Some t)
    by (apply Hst; left).
  assert (Hst' : forall i' t', (i', t') ∈ r ->
            transportes_atualizado (f st (i, t)) !! i' = Some t').
  { intros i' t' Hin. rewrite Hf by (done || left).
    rewrite list_lookup_insert_ne.
    - apply Hst. by right.
    - intros ->. apply Hi. apply list_elem_of_fmap. by exists (i', t'). }
  destruct (IH (f st (i, t))) as [Ha Hb]; [|done|done|].
  { intros st' i' t' Hin. apply Hf. by right. }
  simpl. split.
  - intros j Hj. apply not_elem_of_cons in Hj as [Hji Hj].
    rewrite Ha by done. rewrite Hf by (done || left).
    by rewrite list_lookup_insert_ne.
  - intros j t0 [E|Hin]%elem_of_cons; [|by apply Hb].
    injection E as -> ->. rewrite Ha by done. rewrite Hf by (done || left).
    rewrite list_lookup_insert_eq; [done|]. by eapply lookup_lt_Some.
Qed.

(** In such a loop, iteration [k], on the row [t] at index [i], finds the
    row [t] in the frame and leaves [g t] in its place. *)
Lemma foldl_escrita_k (f : Estado -> nat * Transporte -> Estado)
    (g : Transporte -> Transporte) (its : list (nat * Transporte)) st k i t :
  (forall st i t, (i, t) ∈ its -> transportes_atualizado st !! i = Some t ->
     transportes_atualizado (f st (i, t))
     = <[i:=g t]> (transportes_atualizado st)) ->
  NoDup (its.*1) ->
  (forall i t, (i, t) ∈ its -> transportes_atualizado st !! i = Some t) ->
  its !! k = Some (i, t) ->
  transportes_atualizado (foldl f st (take k its)) !! i = Some t
  /\ transportes_atualizado (foldl f st (take (S k) its))
     = <[i:=g t]> (transportes_atualizado (foldl f st (take k its))).
Proof.
  intros Hf Hnd Hst Hk.
  pose proof (take_drop_middle its k (i, t) Hk) as E.
  assert (Hin : (i, t) ∈ its) by (by eapply list_elem_of_lookup_2).
  assert (Hsub : forall x, x ∈ take k its -> x ∈ its).
  { intros x Hx. rewrite <- E. apply elem_of_app. by left. }
  rewrite <- E, fmap_app, fmap_cons in Hnd.
  apply NoDup_app in Hnd as (Hndpre & Hd & _).
  assert (Hi : i ∉ (take k its).*1).
  { intros Hx. apply (Hd i Hx). left. }
  destruct (foldl_escritas f g (take k its) st) as [Ha _].
  - intros st' i' t' Hin'. apply Hf. by apply Hsub.
  - done.
  - intros i' t' Hin'. apply Hst. by apply Hsub.
  - assert (Hpre : transportes_atualizado (foldl f st (take k its)) !! i = Some t).
    { rewrite Ha by done. by apply Hst. }
    split; [done|].
    rewrite (take_S_r _ _ _ Hk), foldl_app. simpl. by apply Hf.
Qed.

Lemma iterrows_lookup {A} (l : list A) k :
  iterrows l !! k = pair k <$> l !! k.
Proof. unfold iterrows. apply list_lookup_imap. Qed.

Lemma iterrows_elem {A} (l : list A) i (x : A) :
  (i, x) ∈ iterrows l <-> l !! i = Some x.
Proof.
  split.
  - intros [k Hk]%list_elem_of_lookup. rewrite iterrows_lookup in Hk.
    destruct (l !! k) eqn:E; simplify_eq/=. done.
  - intros H. apply list_elem_of_lookup. exists i.
    by rewrite iterrows_lookup, H.
Qed.

Lemma iterrows_NoDup {A} (l : list A) : NoDup (iterrows l).*1.
Proof.
  apply NoDup_alt. intros a b x Ha Hb.
  rewrite list_lookup_fmap, iterrows_lookup in Ha, Hb.
  destruct (l !! a), (l !! b); simplify_eq/=. done.
Qed.

Lemma filter_elem {A} (P : A -> bool) (l : list A) x :
  x ∈ List.filter P l <-> x ∈ l /\ P x = true.
Proof. rewrite !list_elem_of_In. apply filter_In. Qed.

Lemma filter_NoDup_fst {A B} (P : A * B -> bool) (l : list (A * B)) :
  NoDup l.*1 -> NoDup (List.filter P l).*1.
Proof.
  induction l as [|x l IH]; [done|].
  rewrite fmap_cons. intros [Hx Hl]%NoDup_cons. simpl.
  destruct (P x); [|by apply IH].
  rewrite fmap_cons. apply NoDup_cons. split; [|by apply IH].
  intros [y [E Hy]]%list_elem_of_fmap. apply Hx.
  apply list_elem_of_fmap. exists y. split; [done|].
  by apply filter_elem in Hy as [? _].
Qed.

Lemma iteracoes_vazio sc ts ds :
  ts = [] \/ ds = [] -> iteracoes sc ts ds = [].
Proof.
  intros [->| ->]; unfold iteracoes; [done|].
  by rewrite (bool_decide_eq_true_2 (@nil Descarga = [])), orb_true_r.
Qed.

Lemma iteracoes_nao_vazio sc ts ds :
  ts <> [] -> ds <> [] ->
  iteracoes sc ts ds
  = (pair Etapa1ChavePrimaria
       <$> iterrows (transportes_atualizado (estado_inicial ts)))
    ++ (pair Etapa2Placa <$>
          List.filter
            (fun linha => bool_decide (fonte_atualizacao linha.2 = NaoAtualizado))
            (iterrows (transportes_atualizado
                         (etapa1 sc ds (estado_inicial ts))))).
Proof.
  intros Ht Hd. unfold iteracoes.
  by rewrite !bool_decide_eq_false_2.
Qed.

Lemma foldl_passo_etapa1 sc ds st l :
  foldl (passo sc ds) st (pair Etapa1ChavePrimaria <$> l)
  = foldl (etapa1_passo sc (mapa d_chave_primaria ds)) st l.
Proof. revert st. induction l as [|x l IH]; intros st; [done|]. apply IH. Qed.

Lemma foldl_passo_etapa2 sc ds st l :
  foldl (passo sc ds) st (pair Etapa2Placa <$> l)
  = foldl (etapa2_passo sc (mapa chave_placa_fonte_produto ds)) st l.
Proof. revert st. induction l as [|x l IH]; intros st; [done|]. apply IH. Qed.

(** The states of the run while the first loop runs, and while the second
    loop runs. *)
Lemma estado_apos_etapa1 sc ts ds k :
  ts <> [] -> ds <> [] -> k <= length ts ->
  estado_apos sc ts ds k
  = foldl (etapa1_passo sc (mapa d_chave_primaria ds)) (estado_inicial ts)
      (take k (iterrows (transportes_atualizado (estado_inicial ts)))).
Proof.
  intros Ht Hd Hk. unfold estado_apos.
  rewrite iteracoes_nao_vazio by done.
  rewrite take_app_le.
  - by rewrite <- fmap_take, foldl_passo_etapa1.
  - rewrite length_fmap. unfold iterrows. rewrite length_imap.
    cbn [estado_inicial transportes_atualizado]. by rewrite length_fmap.
Qed.

Lemma estado_apos_etapa2 sc ts ds k :
  ts <> [] -> ds <> [] ->
  estado_apos sc ts ds (length ts + k)
  = foldl (etapa2_passo sc (mapa chave_placa_fonte_produto ds))
      (etapa1 sc ds (estado_inicial ts))
      (take k (List.filter
                 (fun linha => bool_decide (fonte_atualizacao linha.2 = NaoAtualizado))
                 (iterrows (transportes_atualizado
                              (etapa1 sc ds (estado_inicial ts)))))).
Proof.
  intros Ht Hd. unfold estado_apos.
  rewrite iteracoes_nao_vazio by done.
  assert (El : length (pair Etapa1ChavePrimaria
                 <$> iterrows (transportes_atualizado (estado_inicial ts)))
               = length ts).
  { rewrite length_fmap. unfold iterrows. rewrite length_imap.
    cbn [estado_inicial transportes_atualizado]. by rewrite length_fmap. }
  rewrite <- El at 1. rewrite take_app_add.
  rewrite foldl_app, foldl_passo_etapa1, <- fmap_take, foldl_passo_etapa2.
  done.
Qed.

(** The run is the sequence of its iterations. *)
Lemma estado_apos_fim sc ts ds :
  ts <> [] -> ds <> [] ->
  estado_apos sc ts ds (length (iteracoes sc ts ds))
  = etapa2 sc ds (etapa1 sc ds (estado_inicial ts)).
Proof.
  intros Ht Hd. unfold estado_apos. rewrite firstn_all.
  rewrite iteracoes_nao_vazio by done.
  by rewrite foldl_app, foldl_passo_etapa1, foldl_passo_etapa2.
Qed.

(** Iteration [k], an iteration of stage [etapa] on the row [t] at index
    [i], finds [t] at index [i] of the frame and replaces it by the row of
    the stage for [t]; the other rows are kept.  An iteration of the first
    loop reads the row of the initial frame; an iteration of the second loop
    reads a row that the first loop has left ['Não Atualizado']. *)
Lemma iteracao_linhas sc ts ds k etapa i t :
  iteracoes sc ts ds !! k = Some (etapa, (i, t)) ->
  transportes_atualizado (estado_apos sc ts ds k) !! i = Some t
  /\ transportes_atualizado (estado_apos sc ts ds (S k))
     = <[i:=linha_da_etapa sc ds etapa t]>
         (transportes_atualizado (estado_apos sc ts ds k))
  /\ ((etapa = Etapa1ChavePrimaria /\ k = i
       /\ transportes_atualizado (estado_inicial ts) !! i = Some t)
      \/ (etapa = Etapa2Placa /\ length ts <= k
          /\ transportes_atualizado (etapa1 sc ds (estado_inicial ts)) !! i
             = Some t
          /\ fonte_atualizacao t = NaoAtualizado)).
Proof.
  intros Hit.
  destruct (decide (ts = [])) as [Ht|Ht];
    [by rewrite iteracoes_vazio in Hit by auto|].
  destruct (decide (ds = [])) as [Hd|Hd];
    [by rewrite iteracoes_vazio in Hit by auto|].
  assert (Hn : length (transportes_atualizado (estado_inicial ts)) = length ts).
  { cbn [estado_inicial transportes_atualizado]. by rewrite length_fmap. }
  assert (Hl1 : length (pair Etapa1ChavePrimaria
                  <$> iterrows (transportes_atualizado (estado_inicial ts)))
                = length ts).
  { rewrite length_fmap. unfold iterrows. by rewrite length_imap. }
  rewrite iteracoes_nao_vazio in Hit by done.
  destruct (decide (k < length ts)) as [Hk|Hk].
  - (* an iteration of the first loop *)
    rewrite lookup_app_l, list_lookup_fmap in Hit by lia.
    destruct (iterrows (transportes_atualizado (estado_inicial ts)) !! k)
      as [[i' t']|] eqn:Ek; simplify_eq/=.
    assert (k = i).
    { rewrite iterrows_lookup in Ek.
      destruct (_ !! k); by simplify_eq/=. }
    subst k.
    rewrite !estado_apos_etapa1 by (done || lia).
    destruct (foldl_escrita_k
                (etapa1_passo sc (mapa d_chave_primaria ds))
                (linha_etapa1 sc (mapa d_chave_primaria ds))
                (iterrows (transportes_atualizado (estado_inicial ts)))
                (estado_inicial ts) i i t) as [Hpre Hpos]; try done.
    { intros st j t' _ Hj. by apply etapa1_passo_linhas. }
    { apply iterrows_NoDup. }
    { intros j t' Hin. by apply iterrows_elem. }
    split; [done|]. split; [done|]. left.
    split; [done|]. split; [done|].
    apply iterrows_elem. by eapply list_elem_of_lookup_2.
  - (* an iteration of the second loop *)
    assert (exists k2, k = length ts + k2) as [k2 ->]
      by (exists (k - length ts); lia).
    rewrite lookup_app_r, Hl1, list_lookup_fmap in Hit by lia.
    replace (length ts + k2 - length ts) with k2 in Hit by lia.
    replace (S (length ts + k2)) with (length ts + S k2) by lia.
    rewrite !estado_apos_etapa2 by done.
    set (st1 := etapa1 sc ds (estado_inicial ts)) in *.
    set (its2 := List.filter _ (iterrows (transportes_atualizado st1))) in *.
    destruct (its2 !! k2) as [[i' t']|] eqn:Ek2; simplify_eq/=.
    assert (Hin : (i, t) ∈ its2) by (by eapply list_elem_of_lookup_2).
    apply filter_elem in Hin as [Hin HP].
    apply iterrows_elem in Hin. simpl in HP. apply bool_decide_eq_true in HP.
    destruct (foldl_escrita_k
                (etapa2_passo sc (mapa chave_placa_fonte_produto ds))
                (linha_etapa2 sc (mapa chave_placa_fonte_produto ds))
                its2 st1 k2 i t) as [Hpre Hpos]; try done.
    { intros st j t' [_ HP']%filter_elem Hj.
      simpl in HP'.
      pose proof (etapa2_passo_linhas sc (mapa chave_placa_fonte_produto ds)
                    st j t' Hj) as H.
      cbv zeta in H. rewrite HP' in H. by destruct H. }
    { apply filter_NoDup_fst, iterrows_NoDup. }
    { intros j t' [Hin' _]%filter_elem. by apply iterrows_elem. }
    split; [done|]. split; [done|]. right.
    split; [done|]. split; [lia|]. done.
Qed.

(** After the last iteration the state no longer changes. *)
Lemma sem_iteracao sc ts ds k :
  iteracoes sc ts ds !! k = None ->
  estado_apos sc ts ds (S k) = estado_apos sc ts ds k.
Proof.
  intros H%lookup_ge_None. unfold estado_apos. by rewrite !take_ge by lia.
Qed.

(** An iteration that writes row [j] is an iteration on row [j] that leaves
    another row than the one it read. *)
Lemma escreve_iteracao sc ts ds k j :
  escreve sc ts ds k j ->
  exists etapa t,
    iteracoes sc ts ds !! k = Some (etapa, (j, t))
    /\ transportes_atualizado (estado_apos sc ts ds k) !! j = Some t
    /\ transportes_atualizado (estado_apos sc ts ds (S k)) !! j
       = Some (linha_da_etapa sc ds etapa t)
    /\ linha_da_etapa sc ds etapa t <> t
    /\ ((etapa = Etapa1ChavePrimaria /\ k = j
         /\ transportes_atualizado (estado_inicial ts) !! j = Some t)
        \/ (etapa = Etapa2Placa /\ length ts <= k
            /\ transportes_atualizado (etapa1 sc ds (estado_inicial ts)) !! j
               = Some t
            /\ fonte_atualizacao t = NaoAtualizado)).
Proof.
  unfold escreve. intros Hw.
  destruct (iteracoes sc ts ds !! k) as [[etapa [i t]]|] eqn:Hit;
    [|by rewrite sem_iteracao in Hw].
  destruct (iteracao_linhas sc ts ds k etapa i t Hit) as (Hpre & Hpos & Hc).
  rewrite Hpos in Hw |- *.
  destruct (decide (j = i)) as [->|Hji];
    [|by rewrite list_lookup_insert_ne in Hw].
  rewrite list_lookup_insert_eq in Hw |- * by (by eapply lookup_lt_Some).
  exists etapa, t. split; [done|]. split; [done|]. split; [done|].
  split; [|done]. intros E. apply Hw. by rewrite Hpre, E.
Qed.

(** The iteration writes the row when the block under
    [if novo_status != status_original] runs. *)
Lemma iteracao_escreve sc ts ds k etapa i t d :
  iteracoes sc ts ds !! k = Some (etapa, (i, t)) ->
  mapa_da_etapa etapa ds !! chave_de_busca sc etapa t = Some d ->
  (etapa = Etapa2Placa -> data_valida t d = true) ->
  novo_status d <> status_original sc t ->
  escreve sc ts ds k i.
Proof.
  intros Hit Hm Hv Hns.
  destruct (iteracao_linhas sc ts ds k etapa i t Hit) as (Hpre & Hpos & Hc).
  unfold escreve. rewrite Hpos, Hpre.
  rewrite list_lookup_insert_eq by (by eapply lookup_lt_Some).
  assert (Hf : fonte_atualizacao t = NaoAtualizado).
  { destruct Hc as [(_ & _ & E)|(_ & _ & _ & E)]; [|done].
    cbn [estado_inicial transportes_atualizado] in E.
    rewrite list_lookup_fmap in E. destruct (ts !! i); by simplify_eq/=. }
  assert (Hl : linha_da_etapa sc ds etapa t = linha_atualizada sc etapa t d).
  { destruct Hc as [(-> & _)|(-> & _)]; cbn in Hm |- *.
    - unfold linha_etapa1. by rewrite Hm.
    - unfold linha_etapa2. rewrite bool_decide_eq_true_2 by done.
      by rewrite Hm, Hv. }
  rewrite Hl. intros [= E].
  assert (He : etapa <> NaoAtualizado)
    by (destruct Hc as [(-> & _)|(-> & _)]; done).
  apply He. rewrite <- Hf, <- E at 1.
  unfold linha_atualizada. rewrite bool_decide_eq_true_2 by done.
  by repeat (destruct (_ && _)).
Qed.

(** A row the first loop has left ['Não Atualizado'] is the row it read. *)
Lemma linha_etapa1_nao_atualizada sc mp t :
  fonte_atualizacao (linha_etapa1 sc mp t) = NaoAtualizado ->
  linha_etapa1 sc mp t = t.
Proof.
  unfold linha_etapa1. destruct (mp !! chave_primaria t) as [m|]; [|done].
  destruct (linha_atualizada_fonte sc Etapa1ChavePrimaria t m) as [E|E];
    [done|]. rewrite E. discriminate.
Qed.

Lemma chave_de_busca_fonte sc etapa f t :
  chave_de_busca sc etapa (set_fonte_atualizacao f t) = chave_de_busca sc etapa t.
Proof. by destruct etapa, sc. Qed.

Lemma linha_atualizada_muda sc etapa t d :
  fonte_atualizacao (linha_atualizada sc etapa t d) <> fonte_atualizacao t ->
  novo_status d <> status_original sc t.
Proof.
  unfold linha_atualizada.
  destruct (bool_decide_reflect (novo_status d <> status_original sc t));
    [done|]. by intros H.
Qed.

(** What an iteration that writes row [j] has done when the run returns:
    the row it wrote is the row returned, and the index of the invoice is in
    the set returned. *)
Lemma escreve_resultado sc ts ds k j :
  escreve sc ts ds k j ->
  exists etapa t0 d,
    etapa <> NaoAtualizado
    /\ ts !! j = Some t0
    /\ iteracoes sc ts ds !! k
       = Some (etapa, (j, set_fonte_atualizacao NaoAtualizado t0))
    /\ mapa_da_etapa etapa ds !! chave_de_busca sc etapa t0 = Some d
    /\ (etapa = Etapa2Placa -> data_valida t0 d = true)
    /\ (etapa = Etapa1ChavePrimaria -> k = j)
    /\ (etapa = Etapa2Placa -> length ts <= k)
    /\ (cruzar_e_atualizar_transportes sc ts ds).1.1 !! j
       = Some (linha_atualizada sc etapa
                 (set_fonte_atualizacao NaoAtualizado t0) d)
    /\ fonte_atualizacao
         (linha_atualizada sc etapa (set_fonte_atualizacao NaoAtualizado t0) d)
       = etapa
    /\ original_index d ∈ (cruzar_e_atualizar_transportes sc ts ds).2.
Proof.
  intros Hw.
  destruct (escreve_iteracao sc ts ds k j Hw)
    as (etapa & t & Hit & Hpre & Hpos & Hne & Hcasos).
  assert (H0 : exists t0, ts !! j = Some t0
            /\ transportes_atualizado (estado_inicial ts) !! j
               = Some (set_fonte_atualizacao NaoAtualizado t0)).
  { assert (is_Some (ts !! j)) as [t0 E0].
    { apply lookup_lt_is_Some.
      assert (j < length (transportes_atualizado (estado_inicial ts))).
      { destruct Hcasos as [(_ & _ & E)|(_ & _ & E & _)].
        - by eapply lookup_lt_Some.
        - apply lookup_lt_Some in E.
          destruct (etapa1_linhas sc ds (estado_inicial ts)) as [El _].
          by rewrite El, length_fmap in E. }
      cbn [estado_inicial transportes_atualizado] in *.
      by rewrite length_fmap in *. }
    exists t0. split; [done|].
    cbn [estado_inicial transportes_atualizado].
    by rewrite list_lookup_fmap, E0. }
  destruct H0 as (t0 & E0 & Er0).
  set (t00 := set_fonte_atualizacao NaoAtualizado t0) in *.
  assert (Hts : ts <> []) by (intros ->; done).
  assert (Ht : t = t00).
  { destruct Hcasos as [(_ & _ & E)|(_ & _ & E & Hf)]; [congruence|].
    rewrite (etapa1_lookup sc ds _ j t00 Er0) in E. injection E as <-.
    by apply linha_etapa1_nao_atualizada. }
  subst t.
  destruct Hcasos as [(-> & -> & _)|(-> & Hk & E1 & _)].
  - cbn [linha_da_etapa] in *. unfold linha_etapa1 in Hne.
    destruct (mapa d_chave_primaria ds !! chave_primaria t00) as [d|] eqn:Em;
      [|done].
    destruct (linha_atualizada_fonte sc Etapa1ChavePrimaria t00 d) as [E|Ef];
      [done|].
    assert (Hds : ds <> []).
    { apply mapa_Some in Em as [_ Hd]. intros ->. by apply elem_of_nil in Hd. }
    exists Etapa1ChavePrimaria, t0, d.
    split; [done|]. split; [done|]. split; [done|]. split; [exact Em|].
    split; [done|]. split; [done|]. split; [done|].
    rewrite cruzar_nao_vazio by done. cbn [fst snd].
    split; [|split; [done|]].
    + rewrite (etapa2_lookup sc ds _ j
                 (linha_etapa1 sc (mapa d_chave_primaria ds) t00)
                 (etapa1_lookup sc ds _ j t00 Er0)).
      unfold linha_etapa1. rewrite Em.
      by rewrite linha_etapa2_feita by (by rewrite Ef).
    + apply etapa2_usados_mono.
      apply (etapa1_usa sc ds (estado_inicial ts) t00 d); [|exact Em].
      by eapply list_elem_of_lookup_2.
  - cbn [linha_da_etapa] in *. unfold linha_etapa2 in Hne.
    rewrite bool_decide_eq_true_2 in Hne by done.
    assert (Hkb : chave_busca_placa sc t00 = chave_busca_placa sc t0)
      by (by destruct sc).
    destruct (mapa chave_placa_fonte_produto ds !! chave_busca_placa sc t00)
      as [d|] eqn:Em; [|done].
    destruct (data_valida t00 d) eqn:Ed; [|done].
    destruct (linha_atualizada_fonte sc Etapa2Placa t00 d) as [E|Ef];
      [done|].
    assert (Hds : ds <> []).
    { apply mapa_Some in Em as [_ Hd]. intros ->. by apply elem_of_nil in Hd. }
    exists Etapa2Placa, t0, d.
    split; [done|]. split; [done|]. split; [done|].
    split; [cbn [mapa_da_etapa chave_de_busca]; by rewrite <- Hkb|].
    split; [done|]. split; [done|]. split; [done|].
    rewrite cruzar_nao_vazio by done. cbn [fst snd].
    split; [|split; [done|]].
    + rewrite (etapa2_lookup sc ds _ j t00 E1).
      unfold linha_etapa2. rewrite bool_decide_eq_true_2 by done.
      by rewrite Em, Ed.
    + apply etapa2_usados. right. exists j, t00, d. done.
Qed.

(** No two iterations of one stage are on the same index. *)
Lemma iteracoes_NoDup sc ts ds :
  NoDup ((fun it : Fonte * (nat * Transporte) => (it.1, it.2.1))
           <$> iteracoes sc ts ds).
Proof.
  destruct (decide (ts = [])) as [Ht|Ht];
    [rewrite iteracoes_vazio by auto; constructor|].
  destruct (decide (ds = [])) as [Hd|Hd];
    [rewrite iteracoes_vazio by auto; constructor|].
  rewrite iteracoes_nao_vazio by done.
  rewrite fmap_app, <- !list_fmap_compose.
  assert (Hc : forall e (l : list (nat * Transporte)),
            (fun it : Fonte * (nat * Transporte) => (it.1, it.2.1)) ∘ pair e <$> l
            = pair e <$> l.*1).
  { intros e l. rewrite <- list_fmap_compose. by apply list_fmap_ext. }
  rewrite !Hc. apply NoDup_app. split; [|split].
  - apply NoDup_fmap_2; [by intros ?? [=]|]. apply iterrows_NoDup.
  - intros x [a [-> _]]%list_elem_of_fmap [b [[=] _]]%list_elem_of_fmap.
  - apply NoDup_fmap_2; [by intros ?? [=]|].
    apply filter_NoDup_fst, iterrows_NoDup.
Qed.

Lemma iteracoes_indice sc ts ds k k' etapa i t t' :
  iteracoes sc ts ds !! k = Some (etapa, (i, t)) ->
  iteracoes sc ts ds !! k' = Some (etapa, (i, t')) ->
  k = k'.
Proof.
  intros Hk Hk'.
  apply (NoDup_lookup _ k k' (etapa, i) (iteracoes_NoDup sc ts ds));
    rewrite list_lookup_fmap; [by rewrite Hk|by rewrite Hk'].
Qed.

(** At most one iteration of a run writes a given row. *)
Lemma escreve_unica sc ts ds k k' i :
  escreve sc ts ds k i -> escreve sc ts ds k' i -> k = k'.
Proof.
  intros Hw Hw'.
  destruct (escreve_iteracao sc ts ds k i Hw)
    as (e & t & Hit & _ & _ & Hne & Hc).
  destruct (escreve_iteracao sc ts ds k' i Hw')
    as (e' & t' & Hit' & _ & _ & Hne' & Hc').
  assert (Hcruz : forall t t',
            transportes_atualizado (estado_inicial ts) !! i = Some t ->
            linha_da_etapa sc ds Etapa1ChavePrimaria t <> t ->
            transportes_atualizado (etapa1 sc ds (estado_inicial ts)) !! i
            = Some t' ->
            fonte_atualizacao t' = NaoAtualizado -> False).
  { intros u u' E0 Hu E1 Hf.
    rewrite (etapa1_lookup sc ds _ i u E0) in E1. injection E1 as <-.
    apply Hu. by apply linha_etapa1_nao_atualizada. }
  destruct Hc as [(-> & -> & E0)|(-> & Hk & E1 & Hf)];
    destruct Hc' as [(-> & -> & E0')|(-> & Hk' & E1' & Hf')].
  - done.
  - destruct (Hcruz _ _ E0 Hne E1' Hf').
  - destruct (Hcruz _ _ E0' Hne' E1 Hf).
  - by eapply iteracoes_indice.
Qed.

(** C1, as stated, fails: the set of used indices is written and never read
    by the matcher.  Within the first stage, two shipments with the key of
    one invoice (index 7) are both updated from it, in the iterations 0 and
    1 of the run; and an invoice used by the first stage for one shipment
    (iteration 0) is used again by the second stage (iteration 2) for
    another shipment with its plate key. *)
Lemma C1_counterexample :
  let d := nota_fiscal "123" "ABC1234" (Some 10%Z) None 7 in
  let ts := processar_dados_transportes
              [viagem "123" em_transito (Some 5%Z);
               viagem "123" em_transito (Some 5%Z)] in
  let us := processar_dados_transportes
              [viagem "123" em_transito (Some 5%Z);
               viagem "999" em_transito (Some 5%Z)] in
  (atualizado_por Drive_Sheets ts [d] Etapa1ChavePrimaria 0 d
   /\ atualizado_por Drive_Sheets ts [d] Etapa1ChavePrimaria 1 d
   /\ data_chegada <$> (cruzar_e_atualizar_transportes Drive_Sheets ts [d]).1.1
      = [Some 10%Z; Some 10%Z]
   /\ elements (cruzar_e_atualizar_transportes Drive_Sheets ts [d]).2 = [7%Z])
  /\ (atualizado_por Drive_Sheets us [d] Etapa1ChavePrimaria 0 d
      /\ atualizado_por Drive_Sheets us [d] Etapa2Placa 1 d
      /\ fonte_atualizacao <$> (cruzar_e_atualizar_transportes Drive_Sheets us [d]).1.1
         = [Etapa1ChavePrimaria; Etapa2Placa])
  /\ (atualizada_em Drive_Sheets ts [d] 0 Etapa1ChavePrimaria 0 d
      /\ atualizada_em Drive_Sheets ts [d] 1 Etapa1ChavePrimaria 1 d
      /\ atualizada_em Drive_Sheets us [d] 0 Etapa1ChavePrimaria 0 d
      /\ atualizada_em Drive_Sheets us [d] 2 Etapa2Placa 1 d).
Proof.
  cbv zeta. split; [|split].
  - unfold atualizado_por.
    repeat split; try done; try (by vm_compute);
      (eexists _, _; split; [by vm_compute|]; split; [by vm_compute|];
       split; by vm_compute).
  - unfold atualizado_por.
    repeat split; try done; try (by vm_compute);
      (eexists _, _; split; [by vm_compute|]; split; [by vm_compute|];
       split; by vm_compute).
  - unfold atualizada_em, escreve.
    repeat split;
      try (vm_compute; discriminate);
      (eexists; split; by vm_compute).
Qed.

(** C1, amended: the matcher records the invoices it matched in
    [indices_descargas_usados] and never consults that set, so an invoice
    may update several shipment rows; what holds is that every shipment row
    is updated at most once per run.  The run is the sequence of the
    iterations of its two loops, and at most one of them writes a given row.
    An iteration writes row [i] exactly when it is an iteration on row [i]
    for which the stage finds an invoice under the key of the row (and, in
    the second stage, the date test passes) and the block under
    [if novo_status != status_original] runs.  The row it leaves is the row
    the run returns, with the label of the stage, and the index of the
    invoice is in the set returned; the stage and the invoice of a row are
    unique.  Within one stage, two rows are updated from the same invoice
    (the same [original_index], the indices of the frame being distinct)
    only if they carry the same lookup key of that stage.  The rows the two
    loops leave do not depend on what the set and the counters hold when the
    loops start. *)
Theorem C1_uma_atualizacao (sc : Script) (df_transportes : list Transporte)
    (df_descargas : list Descarga) :
  (df_transportes <> [] -> df_descargas <> [] ->
   let st := estado_apos sc df_transportes df_descargas
               (length (iteracoes sc df_transportes df_descargas)) in
   cruzar_e_atualizar_transportes sc df_transportes df_descargas
   = (transportes_atualizado st, Some (contadores st),
      indices_descargas_usados st))
  /\ (forall k k' i,
        escreve sc df_transportes df_descargas k i ->
        escreve sc df_transportes df_descargas k' i ->
        k = k')
  /\ (forall k i,
        escreve sc df_transportes df_descargas k i <->
        exists etapa t d,
          iteracoes sc df_transportes df_descargas !! k = Some (etapa, (i, t))
          /\ mapa_da_etapa etapa df_descargas !! chave_de_busca sc etapa t
             = Some d
          /\ (etapa = Etapa2Placa -> data_valida t d = true)
          /\ novo_status d <> status_original sc t)
  /\ (forall k i,
        escreve sc df_transportes df_descargas k i ->
        exists etapa t d,
          etapa <> NaoAtualizado
          /\ df_transportes !! i = Some t
          /\ atualizada_em sc df_transportes df_descargas k etapa i d
          /\ (etapa = Etapa2Placa -> data_valida t d = true)
          /\ (cruzar_e_atualizar_transportes sc df_transportes df_descargas).1.1
               !! i
             = Some (linha_atualizada sc etapa
                       (set_fonte_atualizacao NaoAtualizado t) d)
          /\ fonte_atualizacao
               (linha_atualizada sc etapa
                  (set_fonte_atualizacao NaoAtualizado t) d) = etapa
          /\ original_index d
             ∈ (cruzar_e_atualizar_transportes sc df_transportes df_descargas).2)
  /\ (forall k k' etapa etapa' i d d',
        atualizada_em sc df_transportes df_descargas k etapa i d ->
        atualizada_em sc df_transportes df_descargas k' etapa' i d' ->
        k = k' /\ etapa = etapa' /\ d = d')
  /\ (forall k k' etapa i j d d',
        NoDup (original_index <$> df_descargas) ->
        atualizada_em sc df_transportes df_descargas k etapa i d ->
        atualizada_em sc df_transportes df_descargas k' etapa j d' ->
        original_index d = original_index d' ->
        exists ti tj,
          df_transportes !! i = Some ti /\ df_transportes !! j = Some tj
          /\ chave_de_busca sc etapa ti = chave_de_busca sc etapa tj)
  /\ (forall st st',
        transportes_atualizado st = transportes_atualizado st' ->
        transportes_atualizado
          (etapa2 sc df_descargas (etapa1 sc df_descargas st))
        = transportes_atualizado
            (etapa2 sc df_descargas (etapa1 sc df_descargas st'))).
Proof.
  split; [|split; [|split; [|split; [|split; [|split]]]]].
  - intros Ht Hd. cbv zeta.
    rewrite estado_apos_fim by done. by apply cruzar_nao_vazio.
  - apply escreve_unica.
  - intros k i. split.
    + intros Hw.
      destruct (escreve_resultado sc _ _ k i Hw)
        as (etapa & t & d & He & Hi & Hit & Hm & Hv & _ & _ & _ & Hf & _).
      exists etapa, (set_fonte_atualizacao NaoAtualizado t), d.
      split; [done|]. split; [by rewrite chave_de_busca_fonte|].
      split; [done|].
      apply (linha_atualizada_muda sc etapa). by rewrite Hf.
    + intros (etapa & t & d & Hit & Hm & Hv & Hns).
      by eapply iteracao_escreve.
  - intros k i Hw.
    destruct (escreve_resultado sc _ _ k i Hw)
      as (etapa & t & d & He & Hi & Hit & Hm & Hv & _ & _ & Hr & Hf & Hu).
    exists etapa, t, d.
    split; [done|]. split; [done|]. split; [|done].
    split; [done|]. eexists. split; [exact Hit|].
    by rewrite chave_de_busca_fonte.
  - intros k k' etapa etapa' i d d' [Hw (t & Hit & Hm)] [Hw' (t' & Hit' & Hm')].
    assert (k = k') as <- by (by eapply escreve_unica).
    assert (etapa = etapa' /\ t = t') as [<- <-] by (split; congruence).
    split; [done|]. split; [done|]. congruence.
  - intros k k' etapa i j d d' Hnd [Hw (t & Hit & Hm)] [Hw' (t' & Hit' & Hm')] E.
    destruct (escreve_resultado sc _ _ k i Hw)
      as (e & ti & _ & _ & Hi & Hiti & _).
    destruct (escreve_resultado sc _ _ k' j Hw')
      as (e' & tj & _ & _ & Hj & Hitj & _).
    assert (t = set_fonte_atualizacao NaoAtualizado ti) as -> by congruence.
    assert (t' = set_fonte_atualizacao NaoAtualizado tj) as -> by congruence.
    rewrite chave_de_busca_fonte in Hm, Hm'.
    exists ti, tj. split; [done|]. split; [done|].
    apply mapa_da_etapa_Some in Hm as [Hd ->].
    apply mapa_da_etapa_Some in Hm' as [Hd' ->].
    by rewrite (NoDup_fmap_inj original_index _ _ _ Hnd Hd Hd' E).
  - intros st st' E.
    destruct (etapa2_linhas sc df_descargas (etapa1 sc df_descargas st))
      as [-> _].
    destruct (etapa2_linhas sc df_descargas (etapa1 sc df_descargas st'))
      as [-> _].
    destruct (etapa1_linhas sc df_descargas st) as [-> _].
    destruct (etapa1_linhas sc df_descargas st') as [-> _].
    by rewrite E.
Qed.

Lemma C1_uma_atualizacao_witness :
  let d := nota_fiscal "123" "ABC1234" (Some 10%Z) None 7 in
  let ts := processar_dados_transportes
              [viagem "123" em_transito (Some 5%Z);
               viagem "123" em_transito (Some 5%Z)] in
  exists ti tj,
    ts !! 0 = Some ti /\ ts !! 1 = Some tj
    /\ chave_de_busca Drive_Sheets Etapa1ChavePrimaria ti
       = chave_de_busca Drive_Sheets Etapa1ChavePrimaria tj.
Proof.
  cbv zeta.
  apply (proj1 (proj2 (proj2 (proj2 (proj2 (proj2
           (C1_uma_atualizacao Drive_Sheets
              (processar_dados_transportes
                 [viagem "123" em_transito (Some 5%Z);
                  viagem "123" em_transito (Some 5%Z)])
              [nota_fiscal "123" "ABC1234" (Some 10%Z) None 7]))))))
          0 1 Etapa1ChavePrimaria 0 1
          (nota_fiscal "123" "ABC1234" (Some 10%Z) None 7)
          (nota_fiscal "123" "ABC1234" (Some 10%Z) None 7)).
  - simpl. apply NoDup_singleton.
  - split; [unfold escreve; vm_compute; discriminate|].
    eexists. split; by vm_compute.
  - split; [unfold escreve; vm_compute; discriminate|].
    eexists. split; by vm_compute.
  - reflexivity.
Defined.


(** ** The run as a whole *)

Lemma linha_atualizada_fixas sc etapa t m :
  celulas_fixas (linha_atualizada sc etapa t m) = celulas_fixas t.
Proof.
  unfold linha_atualizada. destruct (bool_decide _); [|done].
  by repeat (destruct (_ && _)).
Qed.

Lemma linha_etapa1_fixas sc mp t :
  celulas_fixas (linha_etapa1 sc mp t) = celulas_fixas t.
Proof.
  unfold linha_etapa1. destruct (mp !! _); [|done].
  apply linha_atualizada_fixas.
Qed.

Lemma linha_etapa2_fixas sc mp t :
  celulas_fixas (linha_etapa2 sc mp t) = celulas_fixas t.
Proof.
  unfold linha_etapa2. destruct (bool_decide _); [|done].
  destruct (mp !! _) as [m|]; [|done].
  destruct (data_valida t m); [|done].
  apply linha_atualizada_fixas.
Qed.

(** The result frame of a run on two frames that are not empty. *)
Lemma cruzar_linhas sc ts ds :
  ts <> [] -> ds <> [] ->
  (cruzar_e_atualizar_transportes sc ts ds).1.1
  = (fun t => linha_etapa2 sc (mapa chave_placa_fonte_produto ds)
                (linha_etapa1 sc (mapa d_chave_primaria ds)
                   (set_fonte_atualizacao NaoAtualizado t))) <$> ts.
Proof.
  intros Ht Hd. rewrite cruzar_nao_vazio by done. simpl.
  destruct (etapa2_linhas sc ds (etapa1 sc ds (estado_inicial ts))) as [-> _].
  destruct (etapa1_linhas sc ds (estado_inicial ts)) as [-> _].
  simpl. by rewrite <- !list_fmap_compose.
Qed.

(** The matcher writes four columns only (status, arrival date, unloading
    date, label): the frame it returns has the rows of the transports frame,
    in the same order, with their document, product, receiver, plate,
    loading date and key columns untouched. *)
Theorem cruzar_conserva_celulas (sc : Script) (df_transportes : list Transporte)
    (df_descargas : list Descarga) :
  celulas_fixas <$> (cruzar_e_atualizar_transportes sc df_transportes df_descargas).1.1
  = celulas_fixas <$> df_transportes.
Proof.
  destruct (decide (df_transportes = [])) as [->|Ht].
  { by destruct sc. }
  destruct (decide (df_descargas = [])) as [->|Hd].
  { unfold cruzar_e_atualizar_transportes.
    rewrite (bool_decide_eq_false_2 _ Ht). simpl.
    destruct sc; simpl; [|done]. by rewrite <- list_fmap_compose. }
  rewrite cruzar_linhas by done. rewrite <- list_fmap_compose.
  apply list_fmap_ext. intros i t _. simpl.
  by rewrite linha_etapa2_fixas, linha_etapa1_fixas.
Qed.

Lemma usado_etapa1_indice (ds : list Descarga) t x :
  x ∈ usado_etapa1 (mapa d_chave_primaria ds) t ->
  x ∈ original_index <$> ds.
Proof.
  unfold usado_etapa1. destruct (mapa _ _ !! _) as [m|] eqn:E; [|set_solver].
  apply mapa_Some in E as [_ Hm]. intros ->%elem_of_singleton.
  apply list_elem_of_fmap. by exists m.
Qed.

Lemma usado_etapa2_indice sc (ds : list Descarga) t x :
  x ∈ usado_etapa2 sc (mapa chave_placa_fonte_produto ds) t ->
  x ∈ original_index <$> ds.
Proof.
  unfold usado_etapa2. destruct (bool_decide _); [|set_solver].
  destruct (mapa _ _ !! _) as [m|] eqn:E; [|set_solver].
  destruct (data_valida t m); [|set_solver].
  apply mapa_Some in E as [_ Hm]. intros ->%elem_of_singleton.
  apply list_elem_of_fmap. by exists m.
Qed.

Lemma cruzar_usados_indices sc ts (ds : list Descarga) :
  (cruzar_e_atualizar_transportes sc ts ds).2
  ⊆ list_to_set (original_index <$> ds).
Proof.
  unfold cruzar_e_atualizar_transportes.
  destruct (_ || _); [destruct sc; set_solver|]. simpl.
  destruct (etapa2_linhas sc ds (etapa1 sc ds (estado_inicial ts))) as [_ ->].
  destruct (etapa1_linhas sc ds (estado_inicial ts)) as [_ ->].
  simpl. intros x. rewrite !elem_of_union, !elem_of_union_list, elem_of_list_to_set.
  intros [(X & HX & Hx)|[(X & HX & Hx)|?]]; [| |set_solver].
  - apply list_elem_of_fmap in HX as (t & -> & _).
    by eapply usado_etapa2_indice.
  - apply list_elem_of_fmap in HX as (t & -> & _).
    by eapply usado_etapa1_indice.
Qed.

(** Every index the matcher marks as used is the index of a row of the
    descargas frame, so the [drop(index=list(indices_usados))] of [main]
    never raises [KeyError]: it returns the rows whose index is not marked. *)
Theorem drop_index_dos_usados (sc : Script) (df_transportes : list Transporte)
    (df_descargas : list Descarga) :
  drop_index df_descargas
    (cruzar_e_atualizar_transportes sc df_transportes df_descargas).2
  = Some (List.filter
            (fun d => bool_decide
               (original_index d ∉
                (cruzar_e_atualizar_transportes sc df_transportes df_descargas).2))
            df_descargas).
Proof.
  unfold drop_index.
  by rewrite bool_decide_eq_true_2 by apply cruzar_usados_indices.
Qed.

(** The second stage never rewrites a row that carries the label of a
    stage: a row updated by the primary key is left as the first stage wrote
    it, whatever its plate key would find. *)
Theorem etapa2_conserva_etapa1 (sc : Script) (df_descargas : list Descarga)
    (st : Estado) (i : nat) (t : Transporte) :
  transportes_atualizado st !! i = Some t ->
  fonte_atualizacao t <> NaoAtualizado ->
  transportes_atualizado (etapa2 sc df_descargas st) !! i = Some t.
Proof.
  intros Hi Hf. rewrite (etapa2_lookup _ _ _ _ _ Hi).
  by rewrite linha_etapa2_feita.
Qed.

Lemma etapa2_conserva_etapa1_witness :
  let ds := [nota_fiscal "123" "ABC1234" (Some 10%Z) None 7;
             nota_fiscal "456" "ABC1234" (Some 11%Z) (Some 12%Z) 8] in
  let st := etapa1 Drive_Sheets ds
              (estado_inicial [viagem "123" em_transito (Some 5%Z)]) in
  exists t,
    transportes_atualizado st !! 0 = Some t
    /\ fonte_atualizacao t = Etapa1ChavePrimaria
    /\ transportes_atualizado (etapa2 Drive_Sheets ds st) !! 0 = Some t.
Proof.
  cbv zeta. eexists. split; [by vm_compute|]. split; [reflexivity|].
  apply etapa2_conserva_etapa1; [by vm_compute|discriminate].
Defined.

Lemma set_fonte_mesma t :
  set_fonte_atualizacao (fonte_atualizacao t) t = t.
Proof. by destruct t. Qed.

(** The two stages on one row that enters without label. *)
Lemma linha_final_casos sc ds t :
  let t0 := set_fonte_atualizacao NaoAtualizado t in
  let t' := linha_etapa2 sc (mapa chave_placa_fonte_produto ds)
              (linha_etapa1 sc (mapa d_chave_primaria ds) t0) in
  t' = t0
  \/ exists etapa m,
       etapa <> NaoAtualizado
       /\ mapa_da_etapa etapa ds !! chave_de_busca sc etapa t = Some m
       /\ (etapa = Etapa2Placa ->
           data_valida t m = true
           /\ linha_etapa1 sc (mapa d_chave_primaria ds) t0 = t0)
       /\ t' = linha_atualizada sc etapa t0 m
       /\ fonte_atualizacao t' = etapa.
Proof.
  intros t0 t'. subst t'.
  assert (Hk : chave_busca_placa sc t0 = chave_busca_placa sc t) by (by destruct sc).
  assert (H2 :
    linha_etapa2 sc (mapa chave_placa_fonte_produto ds) t0 = t0
    \/ exists m, mapa chave_placa_fonte_produto ds !! chave_busca_placa sc t = Some m
         /\ data_valida t m = true
         /\ linha_etapa2 sc (mapa chave_placa_fonte_produto ds) t0
            = linha_atualizada sc Etapa2Placa t0 m
         /\ fonte_atualizacao (linha_atualizada sc Etapa2Placa t0 m) = Etapa2Placa).
  { destruct (linha_etapa2_casos sc (mapa chave_placa_fonte_produto ds) t0)
      as [?|(m & ? & ? & ? & ?)]; [by left|right].
    exists m. by rewrite <- Hk. }
  unfold linha_etapa1. change (chave_primaria t0) with (chave_primaria t).
  destruct (mapa d_chave_primaria ds !! chave_primaria t) as [m|] eqn:Em.
  - destruct (linha_atualizada_fonte sc Etapa1ChavePrimaria t0 m) as [E1|E1].
    + rewrite E1. destruct H2 as [E2|(m2 & Em2 & Ed & E2 & Ef)]; [by left|].
      right. exists Etapa2Placa, m2. rewrite E2.
      split; [done|]. split; [done|]. split; [done|]. by split.
    + right. exists Etapa1ChavePrimaria, m.
      rewrite linha_etapa2_feita by (by rewrite E1).
      split; [done|]. split; [done|]. split; [done|]. by split.
  - destruct H2 as [E2|(m2 & Em2 & Ed & E2 & Ef)]; [by left|].
    right. exists Etapa2Placa, m2. rewrite E2.
    split; [done|]. split; [done|]. split; [done|]. by split.
Qed.

Lemma linha_atualizada_chegada sc etapa t m :
  fonte_atualizacao t = NaoAtualizado ->
  fonte_atualizacao (linha_atualizada sc etapa t m) <> NaoAtualizado ->
  data_chegada (linha_atualizada sc etapa t m) = data m.
Proof.
  intros Hf. unfold linha_atualizada. destruct (bool_decide _); [|done].
  by repeat (destruct (_ && _)).
Qed.

(** The label of a result row tells what happened to it.  A row labelled
    'Não Atualizado' is the input row, no cell written; a row labelled with
    the first stage carries the issue date of the invoice found under its
    primary key as arrival date; a row labelled with the second stage carries
    the issue date of the invoice found under its plate key, and that date is
    not earlier than its loading date. *)
Theorem cruzar_rotulo (sc : Script) (df_transportes : list Transporte)
    (df_descargas : list Descarga) (i : nat) (t t' : Transporte) :
  df_transportes !! i = Some t ->
  (cruzar_e_atualizar_transportes sc df_transportes df_descargas).1.1 !! i = Some t' ->
  df_descargas <> [] ->
  match fonte_atualizacao t' with
  | NaoAtualizado => t' = set_fonte_atualizacao NaoAtualizado t
  | Etapa1ChavePrimaria =>
      exists m, mapa d_chave_primaria df_descargas !! chave_primaria t = Some m
                /\ data_chegada t' = data m
  | Etapa2Placa =>
      exists m, mapa chave_placa_fonte_produto df_descargas
                  !! chave_busca_placa sc t = Some m
                /\ data_valida t m = true
                /\ data_chegada t' = data m
  end.
Proof.
  intros Hi Hr Hd.
  destruct (cruzar_lookup sc df_transportes df_descargas i t Hi) as [E|[E _]]; [|done].
  rewrite E in Hr. injection Hr as <-.
  destruct (linha_final_casos sc df_descargas t)
    as [->|(etapa & m & Hne & Hm & Hv & -> & Hf)]; [done|].
  rewrite Hf. destruct etapa; [done| |].
  - exists m. split; [done|]. apply linha_atualizada_chegada; [done|].
    by rewrite Hf.
  - exists m. split; [done|]. split; [by apply Hv|].
    apply linha_atualizada_chegada; [done|]. by rewrite Hf.
Qed.

Lemma cruzar_rotulo_witness :
  let t := viagem "999" em_transito (Some 5%Z) in
  let d := nota_fiscal "123" "ABC1234" (Some 10%Z) None 7 in
  exists t',
    (cruzar_e_atualizar_transportes Drive_Sheets [t] [d]).1.1 !! 0 = Some t'
    /\ fonte_atualizacao t' = Etapa2Placa
    /\ data_chegada t' = Some 10%Z.
Proof.
  cbv zeta. eexists. split; [by vm_compute|]. split; [reflexivity|].
  pose proof (cruzar_rotulo Drive_Sheets
                [viagem "999" em_transito (Some 5%Z)]
                [nota_fiscal "123" "ABC1234" (Some 10%Z) None 7] 0 _ _
                eq_refl eq_refl) as H.
  destruct H as (m & Hm & _ & Hc); [discriminate|].
  vm_compute in Hm. injection Hm as <-. exact Hc.
Defined.

(** ** The counters *)

Lemma atualizar_contadores sc etapa i t m st :
  contadores (atualizar sc etapa i t m st)
  = match transicao_de sc t m with
    | Some tr => incrementar etapa tr (contadores st)
    | None => contadores st
    end.
Proof.
  unfold atualizar, transicao_de.
  destruct (bool_decide _); [|done].
  by repeat (destruct (_ && _)).
Qed.

Lemma total_incrementar etapa tr k c :
  etapa <> NaoAtualizado ->
  total_de k (incrementar etapa tr c) = total_de k c + peso k (Some tr).
Proof.
  intros He. destruct c. unfold peso.
  destruct etapa; [done| |]; destruct tr, k; simpl;
    unfold total_t_ad, total_t_d, total_ad_d; simpl; lia.
Qed.

Lemma peso_None k : peso k None = 0.
Proof. done. Qed.

Lemma etapa1_passo_contadores sc mp k st linha :
  total_de k (contadores (etapa1_passo sc mp st linha))
  = total_de k (contadores st) + peso k (transicao_etapa1 sc mp linha.2).
Proof.
  destruct linha as [i t]. unfold etapa1_passo, transicao_etapa1. simpl.
  destruct (mp !! chave_primaria t) as [m|]; [|rewrite peso_None; lia].
  rewrite atualizar_contadores. simpl.
  destruct (transicao_de sc t m); [|rewrite peso_None; lia].
  by rewrite total_incrementar.
Qed.

Lemma etapa2_passo_contadores sc mp k st linha :
  total_de k
    (contadores
       (if bool_decide (fonte_atualizacao linha.2 = NaoAtualizado)
        then etapa2_passo sc mp st linha else st))
  = total_de k (contadores st) + peso k (transicao_etapa2 sc mp linha.2).
Proof.
  destruct linha as [i t]. unfold etapa2_passo, transicao_etapa2. simpl.
  destruct (bool_decide _); [|rewrite peso_None; lia].
  destruct (mp !! chave_busca_placa sc t) as [m|]; [|rewrite peso_None; lia].
  destruct (data_valida t m); [|rewrite peso_None; lia].
  rewrite atualizar_contadores. simpl.
  destruct (transicao_de sc t m); [|rewrite peso_None; lia].
  by rewrite total_incrementar.
Qed.

Lemma foldl_contadores {A} (passo : Estado -> A -> Estado)
    (mu : Contadores -> nat) (w : A -> nat) :
  (forall st x, mu (contadores (passo st x)) = mu (contadores st) + w x) ->
  forall l st,
    mu (contadores (foldl passo st l)) = mu (contadores st) + sum_list (w <$> l).
Proof.
  intros Hp. induction l as [|x l IH]; intros st; [simpl; lia|].
  rewrite fmap_cons. cbn [foldl sum_list]. rewrite IH, Hp. unfold id. lia.
Qed.

Lemma iterrows_snd {A} (l : list A) : snd <$> iterrows l = l.
Proof.
  unfold iterrows. rewrite fmap_imap. simpl.
  change (fun (n : nat) => snd ∘ pair n) with (fun (_ : nat) (x : A) => x).
  induction l as [|x l IH]; [done|]. rewrite imap_cons. f_equal. apply IH.
Qed.

Lemma etapa1_contadores sc ds k st :
  total_de k (contadores (etapa1 sc ds st))
  = total_de k (contadores st)
    + sum_list (peso k ∘ transicao_etapa1 sc (mapa d_chave_primaria ds)
                  <$> transportes_atualizado st).
Proof.
  unfold etapa1.
  rewrite (foldl_contadores _ (total_de k)
             (fun linha => peso k (transicao_etapa1 sc (mapa d_chave_primaria ds) linha.2)))
    by apply etapa1_passo_contadores.
  f_equal. rewrite <- (iterrows_snd (transportes_atualizado st)) at 2.
  by rewrite <- list_fmap_compose.
Qed.

Lemma etapa2_contadores sc ds k st :
  total_de k (contadores (etapa2 sc ds st))
  = total_de k (contadores st)
    + sum_list (peso k ∘ transicao_etapa2 sc (mapa chave_placa_fonte_produto ds)
                  <$> transportes_atualizado st).
Proof.
  unfold etapa2. rewrite foldl_filter.
  rewrite (foldl_contadores _ (total_de k)
             (fun linha => peso k (transicao_etapa2 sc
                                     (mapa chave_placa_fonte_produto ds) linha.2)))
    by apply etapa2_passo_contadores.
  f_equal. rewrite <- (iterrows_snd (transportes_atualizado st)) at 2.
  by rewrite <- list_fmap_compose.
Qed.

Lemma status_original_AGUARDANDO sc t :
  status t = AGUARDANDO_DESCARGA -> status_original sc t = aguardando_descarga.
Proof. intros H. destruct sc; unfold status_original; by rewrite H. Qed.

Lemma peso_Some k tr : peso k (Some tr) = if bool_decide (tr = k) then 1 else 0.
Proof.
  unfold peso. destruct (decide (tr = k)) as [->|Hne].
  - by rewrite !bool_decide_eq_true_2.
  - rewrite !bool_decide_eq_false_2; [done|done|congruence].
Qed.

(** A labelled row shows AGUARDANDO DESCARGA exactly when the branch from
    transit to waiting was taken. *)
Lemma atualizada_com_aguardando sc etapa t m :
  fonte_atualizacao t = NaoAtualizado -> etapa <> NaoAtualizado ->
  atualizada_com AGUARDANDO_DESCARGA (linha_atualizada sc etapa t m)
  = peso TransitoParaAguardando (transicao_de sc t m).
Proof.
  intros Hf He. unfold linha_atualizada, transicao_de.
  destruct (bool_decide_reflect (novo_status m <> status_original sc t)) as [Hn|Hn].
  - set (b1 := Py.contem transito (status_original sc t)
                && bool_decide (novo_status m = aguardando_descarga)).
    set (b2 := Py.contem transito (status_original sc t)
                && bool_decide (novo_status m = descarregado)).
    set (b3 := Py.contem aguardando (status_original sc t)
                && bool_decide (novo_status m = descarregado)).
    destruct b1 eqn:E1.
    { unfold atualizada_com. simpl. by rewrite bool_decide_eq_true_2. }
    destruct b2 eqn:E2.
    { unfold atualizada_com. simpl. by rewrite bool_decide_eq_true_2. }
    destruct b3 eqn:E3.
    { unfold atualizada_com. simpl. by rewrite bool_decide_eq_true_2. }
    unfold atualizada_com. simpl.
    rewrite (bool_decide_eq_true_2 _ He). simpl.
    destruct (bool_decide_reflect (status t = AGUARDANDO_DESCARGA)) as [Hs|Hs]; [|done].
    exfalso. subst b1 b2 b3.
    rewrite (status_original_AGUARDANDO sc t Hs) in *.
    unfold novo_status in *. by destruct (data_de_descarga m).
  - unfold atualizada_com. rewrite Hf.
    by rewrite bool_decide_eq_false_2 by (intros H; by apply H).
Qed.

(** A labelled row shows DESCARREGADO exactly when one of the two branches
    to DESCARREGADO was taken, provided it did not enter with that status. *)
Lemma atualizada_com_descarregado sc etapa t m :
  fonte_atualizacao t = NaoAtualizado -> etapa <> NaoAtualizado ->
  status t <> DESCARREGADO ->
  atualizada_com DESCARREGADO (linha_atualizada sc etapa t m)
  = peso TransitoParaDescarregado (transicao_de sc t m)
    + peso AguardandoParaDescarregado (transicao_de sc t m).
Proof.
  intros Hf He Hs. unfold linha_atualizada, transicao_de.
  destruct (bool_decide_reflect (novo_status m <> status_original sc t)) as [Hn|Hn].
  - set (b1 := Py.contem transito (status_original sc t)
                && bool_decide (novo_status m = aguardando_descarga)).
    set (b2 := Py.contem transito (status_original sc t)
                && bool_decide (novo_status m = descarregado)).
    set (b3 := Py.contem aguardando (status_original sc t)
                && bool_decide (novo_status m = descarregado)).
    destruct b1 eqn:E1.
    { unfold atualizada_com. simpl. by rewrite bool_decide_eq_true_2. }
    destruct b2 eqn:E2.
    { unfold atualizada_com. simpl. by rewrite bool_decide_eq_true_2. }
    destruct b3 eqn:E3.
    { unfold atualizada_com. simpl. by rewrite bool_decide_eq_true_2. }
    unfold atualizada_com. simpl.
    rewrite (bool_decide_eq_true_2 _ He). simpl.
    by rewrite bool_decide_eq_false_2.
  - unfold atualizada_com. rewrite Hf.
    by rewrite bool_decide_eq_false_2 by (intros H; by apply H).
Qed.

(** The two stages on one row, for a count [W] of branches that agrees with
    what is read on the row written by [atualizar]. *)
Lemma ponto_a_ponto sc ds s (W : option Transicao -> nat) t0 :
  fonte_atualizacao t0 = NaoAtualizado ->
  W None = 0 ->
  (forall etapa m, etapa <> NaoAtualizado ->
     atualizada_com s (linha_atualizada sc etapa t0 m) = W (transicao_de sc t0 m)) ->
  atualizada_com s
    (linha_etapa2 sc (mapa chave_placa_fonte_produto ds)
       (linha_etapa1 sc (mapa d_chave_primaria ds) t0))
  = W (transicao_etapa1 sc (mapa d_chave_primaria ds) t0)
    + W (transicao_etapa2 sc (mapa chave_placa_fonte_produto ds)
           (linha_etapa1 sc (mapa d_chave_primaria ds) t0)).
Proof.
  intros Hf W0 HW.
  assert (H0 : atualizada_com s t0 = 0).
  { unfold atualizada_com. rewrite Hf.
    by rewrite bool_decide_eq_false_2 by (intros H; by apply H). }
  assert (H2 :
    atualizada_com s (linha_etapa2 sc (mapa chave_placa_fonte_produto ds) t0)
    = W (transicao_etapa2 sc (mapa chave_placa_fonte_produto ds) t0)).
  { unfold linha_etapa2, transicao_etapa2.
    rewrite (bool_decide_eq_true_2 _ Hf).
    destruct (mapa _ _ !! _) as [m2|]; [|by rewrite W0].
    destruct (data_valida t0 m2); [|by rewrite W0].
    by apply HW. }
  unfold linha_etapa1, transicao_etapa1.
  destruct (mapa d_chave_primaria ds !! chave_primaria t0) as [m|];
    [|rewrite W0; exact H2].
  destruct (linha_atualizada_fonte sc Etapa1ChavePrimaria t0 m) as [E|E].
  - rewrite E, H2.
    pose proof (HW Etapa1ChavePrimaria m) as H1. rewrite E, H0 in H1.
    rewrite <- H1 by done. lia.
  - rewrite linha_etapa2_feita by (by rewrite E).
    unfold transicao_etapa2.
    rewrite bool_decide_eq_false_2 by (by rewrite E).
    rewrite W0, HW by done. lia.
Qed.

Lemma conta_status_soma s (l : list Transporte) :
  conta_status s (df_updates l) = sum_list (atualizada_com s <$> l).
Proof.
  unfold conta_status, df_updates, atualizada_com.
  induction l as [|t l IH]; [done|]. rewrite fmap_cons. simpl.
  destruct (bool_decide (fonte_atualizacao t <> NaoAtualizado)); simpl; [|done].
  destruct (bool_decide (status t = s)); simpl; by rewrite IH.
Qed.

Lemma sum_list_mais {A} (f g : A -> nat) (l : list A) :
  sum_list (f <$> l) + sum_list (g <$> l) = sum_list ((fun x => f x + g x) <$> l).
Proof.
  induction l as [|x l IH]; [done|]. rewrite !fmap_cons. simpl. lia.
Qed.

(** The total of a count of branches over a run. *)
Lemma cruzar_total sc ts ds c k :
  (cruzar_e_atualizar_transportes sc ts ds).1.2 = Some c ->
  total_de k c
  = sum_list
      ((fun t =>
          let t0 := set_fonte_atualizacao NaoAtualizado t in
          peso k (transicao_etapa1 sc (mapa d_chave_primaria ds) t0)
          + peso k (transicao_etapa2 sc (mapa chave_placa_fonte_produto ds)
                      (linha_etapa1 sc (mapa d_chave_primaria ds) t0)))
       <$> ts)
  /\ (cruzar_e_atualizar_transportes sc ts ds).1.1
     = (fun t => linha_etapa2 sc (mapa chave_placa_fonte_produto ds)
                   (linha_etapa1 sc (mapa d_chave_primaria ds)
                      (set_fonte_atualizacao NaoAtualizado t))) <$> ts.
Proof.
  intros Hc.
  assert (ts <> [] /\ ds <> []) as [Ht Hd].
  { unfold cruzar_e_atualizar_transportes in Hc.
    destruct (bool_decide_reflect (ts = [])); [by destruct sc|].
    destruct (bool_decide_reflect (ds = [])); [by destruct sc|]. done. }
  split; [|by apply cruzar_linhas].
  rewrite cruzar_nao_vazio in Hc by done. simpl in Hc. injection Hc as <-.
  rewrite etapa2_contadores, etapa1_contadores.
  destruct (etapa1_linhas sc ds (estado_inicial ts)) as [-> _].
  simpl. rewrite <- !list_fmap_compose.
  replace (total_de k contadores_zero) with 0 by (by destruct k).
  simpl. by rewrite sum_list_mais.
Qed.

(** The two ways of computing the totals of the banner agree.  The sum of
    the two counters "transito para aguardando" ([Capacidade.py]) is the
    number of rows of [df_updates] whose status is AGUARDANDO DESCARGA
    ([Drive_Sheets.py]); the sum of the four counters to DESCARREGADO is the
    number of rows of [df_updates] whose status is DESCARREGADO, provided no
    row entered the matcher with that status already. *)
Theorem contadores_do_aviso (sc : Script) (df_transportes : list Transporte)
    (df_descargas : list Descarga) (c : Contadores) :
  (cruzar_e_atualizar_transportes sc df_transportes df_descargas).1.2 = Some c ->
  total_t_ad c
  = conta_status AGUARDANDO_DESCARGA
      (df_updates (cruzar_e_atualizar_transportes sc df_transportes df_descargas).1.1)
  /\ (Forall (fun t => status t <> DESCARREGADO) df_transportes ->
      total_ad_d c + total_t_d c
      = conta_status DESCARREGADO
          (df_updates
             (cruzar_e_atualizar_transportes sc df_transportes df_descargas).1.1)).
Proof.
  intros Hc. split.
  - destruct (cruzar_total sc _ _ _ TransitoParaAguardando Hc) as [E ->].
    simpl in E. rewrite E, conta_status_soma, <- list_fmap_compose.
    f_equal. apply list_fmap_ext. intros i t _. simpl.
    rewrite (ponto_a_ponto sc df_descargas AGUARDANDO_DESCARGA
               (peso TransitoParaAguardando)); [done|done|done|].
    intros etapa m He. by apply atualizada_com_aguardando.
  - intros Hs.
    destruct (cruzar_total sc _ _ _ AguardandoParaDescarregado Hc) as [E1 ->].
    destruct (cruzar_total sc _ _ _ TransitoParaDescarregado Hc) as [E2 _].
    simpl in E1, E2. rewrite E1, E2, sum_list_mais, conta_status_soma.
    rewrite <- list_fmap_compose. f_equal.
    apply list_fmap_ext. intros i t Hi. simpl.
    rewrite (ponto_a_ponto sc df_descargas DESCARREGADO
               (fun o => peso TransitoParaDescarregado o
                         + peso AguardandoParaDescarregado o)); [lia|done|done|].
    intros etapa m He. apply atualizada_com_descarregado; [done|done|].
    simpl. eapply (proj1 (Forall_forall _ _) Hs). by eapply list_elem_of_lookup_2.
Qed.

Lemma contadores_do_aviso_witness :
  let ts := [viagem "123" em_transito (Some 5%Z);
             viagem "999" em_transito (Some 5%Z)] in
  let ds := [nota_fiscal "123" "ABC1234" (Some 10%Z) None 7] in
  exists c,
    (cruzar_e_atualizar_transportes Drive_Sheets ts ds).1.2 = Some c
    /\ total_t_ad c = 2
    /\ conta_status AGUARDANDO_DESCARGA
         (df_updates (cruzar_e_atualizar_transportes Drive_Sheets ts ds).1.1) = 2.
Proof.
  cbv zeta. eexists. split; [by vm_compute|].
  split; [reflexivity|].
  symmetry.
  refine (proj1 (contadores_do_aviso Drive_Sheets
                   [viagem "123" em_transito (Some 5%Z);
                    viagem "999" em_transito (Some 5%Z)]
                   [nota_fiscal "123" "ABC1234" (Some 10%Z) None 7]
                   (Build_Contadores 1 0 0 1 0 0) _)).
  by vm_compute.
Defined.

(** ** From [processar_dados_transportes] to the matcher *)

Lemma processar_dados_transportes_linhas (df : list Transporte) :
  Forall linha_processada (processar_dados_transportes df).
Proof.
  unfold processar_dados_transportes. apply Forall_forall.
  intros t (t0 & -> & Ht0)%list_elem_of_fmap.
  apply list_elem_of_In, List.filter_In in Ht0 as [_ Hs].
  apply bool_decide_eq_true in Hs. by split.
Qed.

Lemma lower_cabeca_espaco c r :
  Py.is_space c = true -> Py.lower (c :: r) = c :: Py.lower r.
Proof.
  intros H. change (Py.lower (c :: r)) with (Py.lower_char c ++ Py.lower r).
  by rewrite (space_lower_char _ H).
Qed.

Lemma lower_cauda_espaco c r :
  Py.is_space c = true -> Py.lower (r ++ [c]) = Py.lower r ++ [c].
Proof.
  intros H. rewrite lower_app.
  change (Py.lower [c]) with (Py.lower_char c ++ []).
  by rewrite (space_lower_char _ H), app_nil_r.
Qed.

Lemma lstrip_sem_espaco c r :
  Py.is_space c = false -> Py.lstrip (c :: r) = c :: r.
Proof. intros H. simpl. by rewrite H. Qed.

(** An included status has no white space around it. *)
Lemma strip_status_incluido s :
  Py.lower s ∈ (Py.lower <$> status_para_incluir) -> Py.strip s = s.
Proof.
  intros Hs.
  assert (Hcab : forall c r, Py.lower s = c :: r -> Py.is_space c = false).
  { intros c r E. rewrite E in Hs. vm_compute in Hs.
    repeat (apply elem_of_cons in Hs as [Hs|Hs]; [by injection Hs as -> _|]).
    by apply elem_of_nil in Hs. }
  assert (Hfim : forall c r, Py.lower s = r ++ [c] -> Py.is_space c = false).
  { intros c r E. rewrite E in Hs. vm_compute in Hs.
    repeat (apply elem_of_cons in Hs as [Hs|Hs];
            [apply (f_equal (@rev N)) in Hs; rewrite rev_unit in Hs;
             by injection Hs as -> _|]).
    by apply elem_of_nil in Hs. }
  destruct s as [|c r].
  { vm_compute in Hs.
    repeat (apply elem_of_cons in Hs as [Hs|Hs]; [discriminate|]).
    by apply elem_of_nil in Hs. }
  assert (Hc : Py.is_space c = false).
  { destruct (Py.is_space c) eqn:E; [|done].
    by rewrite <- (Hcab c (Py.lower r) (lower_cabeca_espaco c r E)). }
  unfold Py.strip. rewrite (lstrip_sem_espaco _ _ Hc). unfold Py.rstrip.
  destruct (rev (c :: r)) as [|d q] eqn:Er.
  { apply (f_equal (@rev N)) in Er. rewrite rev_involutive in Er. discriminate. }
  assert (Hd : Py.is_space d = false).
  { destruct (Py.is_space d) eqn:E; [|done].
    apply (f_equal (@rev N)) in Er. rewrite rev_involutive in Er. simpl in Er.
    rewrite <- (Hfim d (Py.lower (rev q))); [done|].
    rewrite Er. by apply lower_cauda_espaco. }
  rewrite (lstrip_sem_espaco _ _ Hd), <- Er. apply rev_involutive.
Qed.

Lemma status_original_processada t :
  linha_processada t ->
  status_original Capacidade t = status_original Drive_Sheets t.
Proof.
  intros [Hs _]. unfold status_original. by rewrite strip_status_incluido.
Qed.

Lemma linha_processada_fonte f t :
  linha_processada t -> linha_processada (set_fonte_atualizacao f t).
Proof. by intros (? & ? & ?). Qed.









(** After [processar_dados_transportes], a row that the matcher labels as
    updated has the status AGUARDANDO DESCARGA or DESCARREGADO, with one
    exception: a row 'Aguardando By Pass' whose invoice has no unloading date
    is labelled (and gets an arrival date) with its status unchanged. *)
Theorem atualizada_sem_mudanca (sc : Script) (df : list Transporte)
    (df_descargas : list Descarga) (i : nat) (t t' : Transporte) :
  processar_dados_transportes df !! i = Some t ->
  (cruzar_e_atualizar_transportes sc (processar_dados_transportes df)
     df_descargas).1.1 !! i = Some t' ->
  df_descargas <> [] ->
  fonte_atualizacao t' <> NaoAtualizado ->
  status t' = AGUARDANDO_DESCARGA
  \/ status t' = DESCARREGADO
  \/ (Py.lower (status t) = cp "aguardando by pass"
      /\ status t' = status t
      /\ exists m,
           mapa_da_etapa (fonte_atualizacao t') df_descargas
             !! chave_de_busca sc (fonte_atualizacao t') t = Some m
           /\ data_de_descarga m = None).
Proof.
  intros Hi Hr Hd Hf.
  assert (Hl : linha_processada t).
  { eapply (proj1 (Forall_forall _ _) (processar_dados_transportes_linhas df)).
    by eapply list_elem_of_lookup_2. }
  destruct (cruzar_lookup sc _ df_descargas _ _ Hi) as [E|[E _]]; [|done].
  rewrite E in Hr. injection Hr as <-.
  destruct (linha_final_casos sc df_descargas t)
    as [E0|(etapa & m & Hne & Hm & _ & E1 & Hfe)].
  { rewrite E0 in Hf. done. }
  rewrite Hfe. rewrite E1 in *. clear E E1.
  set (t0 := set_fonte_atualizacao NaoAtualizado t) in *.
  assert (Hso : status_original sc t0 = Py.lower (status t)).
  { destruct sc; [done|].
    by rewrite (status_original_processada t0 (linha_processada_fonte _ _ Hl)). }
  destruct Hl as [Hs _]. vm_compute (Py.lower <$> status_para_incluir) in Hs.
  assert (Htr : Py.contem transito (status_original sc t0) = true
                \/ (Py.contem transito (status_original sc t0) = false
                    /\ Py.contem aguardando (status_original sc t0) = true)).
  { rewrite Hso.
    repeat (apply elem_of_cons in Hs as [->|Hs]; [by auto|]).
    by apply elem_of_nil in Hs. }
  destruct Htr as [Htr|[Htr Hag]].
  - rewrite (linha_atualizada_transito _ _ _ _ Htr).
    destruct (data_de_descarga m); auto.
  - destruct (data_de_descarga m) as [x|] eqn:Ex.
    + rewrite (linha_atualizada_aguardando _ _ _ _ _ Htr Hag Ex). auto.
    + right; right.
      destruct (linha_atualizada_conserva sc etapa t0 m Htr) as [Est _]; [auto|].
      split; [|split; [exact Est|by exists m]].
      apply elem_of_cons in Hs as [Hs|Hs].
      { exfalso. rewrite Hso, Hs in Htr. discriminate. }
      apply elem_of_cons in Hs as [Hs|Hs].
      { exfalso. apply Hf. rewrite Hfe in *.
        rewrite linha_atualizada_igual in Hfe; [by rewrite <- Hfe|].
        by rewrite (novo_status_None _ Ex), Hso, Hs. }
      apply elem_of_cons in Hs as [Hs|Hs].
      { exfalso. rewrite Hso, Hs in Htr. discriminate. }
      apply elem_of_cons in Hs as [Hs|Hs]; [exact Hs|].
      by apply elem_of_nil in Hs.
Qed.

Lemma atualizada_sem_mudanca_witness :
  let t := viagem "123" (cp "Aguardando By Pass") (Some 5%Z) in
  let d := nota_fiscal "123" "ABC1234" (Some 10%Z) None 7 in
  exists t',
    (cruzar_e_atualizar_transportes Drive_Sheets
       (processar_dados_transportes [t]) [d]).1.1 !! 0 = Some t'
    /\ fonte_atualizacao t' = Etapa1ChavePrimaria
    /\ (status t' = AGUARDANDO_DESCARGA
        \/ status t' = DESCARREGADO
        \/ (Py.lower (status t) = cp "aguardando by pass"
            /\ status t' = status t
            /\ exists m,
                 mapa_da_etapa (fonte_atualizacao t') [d]
                   !! chave_de_busca Drive_Sheets (fonte_atualizacao t') t = Some m
                 /\ data_de_descarga m = None)).
Proof.
  cbv zeta. eexists. split; [by vm_compute|]. split; [reflexivity|].
  apply (atualizada_sem_mudanca Drive_Sheets
           [viagem "123" (cp "Aguardando By Pass") (Some 5%Z)]
           [nota_fiscal "123" "ABC1234" (Some 10%Z) None 7] 0
           (viagem "123" (cp "Aguardando By Pass") (Some 5%Z))).
  - by vm_compute.
  - by vm_compute.
  - discriminate.
  - discriminate.
Defined.

(** ** Column letters *)

Lemma convert_loop_eq n :
  _convert_to_excel_col_loop n
  = match Z_ge_dec n 0 with
    | left _ =>
        fun result =>
          _convert_to_excel_col_loop (n / 26 - 1)
            (Z.to_N (n mod 26 + 65) :: result)
    | right _ => fun result => result
    end.
Proof.
  unfold _convert_to_excel_col_loop at 1. rewrite Fix_eq.
  - by destruct (Z_ge_dec n 0).
  - intros x f g Hfg. destruct (Z_ge_dec x 0); [|done]. by rewrite Hfg.
Qed.

Lemma convert_loop_neg n result :
  (n < 0)%Z -> _convert_to_excel_col_loop n result = result.
Proof.
  intros H. rewrite convert_loop_eq.
  destruct (Z_ge_dec n 0); [lia|done].
Qed.

Lemma convert_loop_pos n result :
  (0 <= n)%Z ->
  _convert_to_excel_col_loop n result
  = _convert_to_excel_col_loop (n / 26 - 1) (Z.to_N (n mod 26 + 65) :: result).
Proof.
  intros H. rewrite convert_loop_eq.
  destruct (Z_ge_dec n 0); [done|lia].
Qed.

(** The loop prepends the letters of [n] to what it was given. *)
Lemma convert_loop_app n result :
  _convert_to_excel_col_loop n result = _convert_to_excel_col n ++ result.
Proof.
  unfold _convert_to_excel_col.
  assert (H : forall k n, Z.to_nat (n + 1) < k -> forall r,
             _convert_to_excel_col_loop n r = _convert_to_excel_col_loop n [] ++ r).
  { clear. induction k as [|k IH]; intros n Hk r; [lia|].
    destruct (Z_lt_dec n 0) as [Hn|Hn].
    - by rewrite !convert_loop_neg.
    - rewrite (convert_loop_pos n r), (convert_loop_pos n []) by lia.
      assert (n / 26 <= n)%Z by (apply Z.div_le_upper_bound; lia).
      rewrite (IH (n / 26 - 1)%Z ltac:(lia) (_ :: r)).
      rewrite (IH (n / 26 - 1)%Z ltac:(lia) [_]).
      by rewrite <- app_assoc. }
  apply (H (S (Z.to_nat (n + 1)))). lia.
Qed.

Lemma convert_neg n : (n < 0)%Z -> _convert_to_excel_col n = [].
Proof. apply convert_loop_neg. Qed.

Lemma convert_pos n :
  (0 <= n)%Z ->
  _convert_to_excel_col n
  = _convert_to_excel_col (n / 26 - 1) ++ [Z.to_N (n mod 26 + 65)].
Proof.
  intros H. unfold _convert_to_excel_col at 1.
  by rewrite convert_loop_pos, convert_loop_app.
Qed.

(** Induction along the loop. *)
Lemma convert_ind (P : Z -> Prop) :
  (forall n, (n < 0)%Z -> P n) ->
  (forall n, (0 <= n)%Z -> P (n / 26 - 1)%Z -> P n) ->
  forall n, P n.
Proof.
  intros Hneg Hpos.
  assert (H : forall k n, Z.to_nat (n + 1) < k -> P n).
  { induction k as [|k IH]; intros n Hk; [lia|].
    destruct (Z_lt_dec n 0) as [Hn|Hn]; [by apply Hneg|].
    apply Hpos; [lia|]. apply IH.
    assert (n / 26 <= n)%Z by (apply Z.div_le_upper_bound; lia). lia. }
  intros n. apply (H (S (Z.to_nat (n + 1)))). lia.
Qed.

Lemma convert_vazio n : _convert_to_excel_col n = [] <-> (n < 0)%Z.
Proof.
  split.
  - intros E. destruct (Z_lt_dec n 0) as [|Hn]; [done|].
    rewrite convert_pos in E by lia. by destruct (_convert_to_excel_col _).
  - apply convert_neg.
Qed.

(** A column number that is not negative gets a name made of upper-case
    letters, at least one; a negative number gets the empty name. *)
Theorem convert_to_excel_col_letras (n : Z) :
  forallb is_AZ (_convert_to_excel_col n) = true
  /\ (_convert_to_excel_col n = [] <-> (n < 0)%Z).
Proof.
  split.
  - induction n as [n Hn|n Hn IH] using convert_ind.
    + by rewrite convert_neg.
    + rewrite convert_pos, forallb_app, IH by done. simpl.
      pose proof (Z.mod_pos_bound n 26 ltac:(lia)).
      unfold is_AZ. rewrite andb_true_r.
      apply andb_true_intro. split; apply N.leb_le; lia.
  - apply convert_vazio.
Qed.

Lemma convert_inj n m :
  (0 <= n)%Z -> (0 <= m)%Z ->
  _convert_to_excel_col n = _convert_to_excel_col m -> n = m.
Proof.
  revert m. induction n as [n Hn|n Hn IH] using convert_ind; [lia|].
  intros m _ Hm E.
  rewrite (convert_pos n), (convert_pos m) in E by done.
  apply app_inj_tail in E as [E1 E2].
  pose proof (Z.mod_pos_bound n 26 ltac:(lia)).
  pose proof (Z.mod_pos_bound m 26 ltac:(lia)).
  assert (Hmod : (n mod 26 = m mod 26)%Z) by lia.
  assert (Hdiv : (n / 26 = m / 26)%Z).
  { assert (0 <= n / 26)%Z by (apply Z.div_pos; lia).
    assert (0 <= m / 26)%Z by (apply Z.div_pos; lia).
    destruct (Z_lt_dec (n / 26 - 1) 0) as [Hq|Hq].
    - rewrite (convert_neg _ Hq) in E1. symmetry in E1.
      apply convert_vazio in E1. lia.
    - destruct (Z_lt_dec (m / 26 - 1) 0) as [Hq'|Hq'].
      + rewrite (convert_neg _ Hq') in E1.
        apply convert_vazio in E1. lia.
      + assert ((n / 26 - 1) = (m / 26 - 1))%Z by (apply IH; [lia|lia|done]). lia. }
  rewrite (Z.div_mod n 26), (Z.div_mod m 26) by lia. by rewrite Hmod, Hdiv.
Qed.

(** Two columns have the same name only if they are the same column: the
    range written by [overwrite_sheet_with_dataframe] ends in the column of
    the last header and in no other. *)
Theorem convert_to_excel_col_inj (n m : Z) :
  (0 <= n)%Z -> (0 <= m)%Z ->
  (_convert_to_excel_col n = _convert_to_excel_col m <-> n = m).
Proof.
  intros Hn Hm. split; [by apply convert_inj|by intros ->].
Qed.

Lemma convert_to_excel_col_inj_witness :
  _convert_to_excel_col 25 = _convert_to_excel_col 26 <-> 25%Z = 26%Z.
Proof. apply convert_to_excel_col_inj; lia. Defined.

(** The first twenty-six columns have one letter. *)
Lemma convert_uma_letra n :
  (0 <= n < 26)%Z -> _convert_to_excel_col n = [Z.to_N (65 + n)].
Proof.
  intros H. rewrite convert_pos by lia.
  rewrite Z.div_small, Z.mod_small by lia.
  rewrite convert_neg by lia. simpl. f_equal. f_equal. lia.
Qed.

(** The names of the columns 0, 25, 26, 27, 701 and 702 are A, Z, AA, AB, ZZ
    and AAA: after Z the names have two letters, after ZZ three. *)
Lemma convert_to_excel_col_exemplos :
  _convert_to_excel_col 0 = cp "A" /\ _convert_to_excel_col 25 = cp "Z"
  /\ _convert_to_excel_col 26 = cp "AA" /\ _convert_to_excel_col 27 = cp "AB"
  /\ _convert_to_excel_col 701 = cp "ZZ" /\ _convert_to_excel_col 702 = cp "AAA".
Proof.
  assert (E0 : _convert_to_excel_col 0 = cp "A")
    by (rewrite convert_uma_letra by lia; reflexivity).
  assert (E25 : _convert_to_excel_col 25 = cp "Z")
    by (rewrite convert_uma_letra by lia; reflexivity).
  assert (E26 : _convert_to_excel_col 26 = cp "AA").
  { rewrite convert_pos by lia.
    change (26 / 26 - 1)%Z with 0%Z. rewrite E0. reflexivity. }
  split; [exact E0|]. split; [exact E25|]. split; [exact E26|].
  split; [|split].
  - rewrite convert_pos by lia.
    change (27 / 26 - 1)%Z with 0%Z. rewrite E0. reflexivity.
  - rewrite convert_pos by lia.
    change (701 / 26 - 1)%Z with 25%Z. rewrite E25. reflexivity.
  - rewrite convert_pos by lia.
    change (702 / 26 - 1)%Z with 26%Z. rewrite E26. reflexivity.
Qed.

Lemma index_Some x l i : index x l = Some i -> l !! i = Some x.
Proof.
  revert i. induction l as [|y l IH]; intros i; [done|]. simpl.
  destruct (bool_decide_reflect (y = x)) as [->|Hne].
  - by intros [= <-].
  - destruct (index x l) as [j|]; [|done]. intros [= <-]. by apply IH.
Qed.

Lemma index_None x l : index x l = None <-> x ∉ l.
Proof.
  induction l as [|y l IH]; simpl.
  - split; [intros _ H; by apply elem_of_nil in H|done].
  - destruct (bool_decide_reflect (y = x)) as [->|Hne].
    + split; [done|]. intros H. exfalso. apply H. by left.
    + destruct (index x l) as [j|] eqn:E; simpl.
      * split; [done|]. intros H. exfalso. apply H. right.
        eapply list_elem_of_lookup_2, index_Some, E.
      * split; [|done]. intros _ [?|H]%elem_of_cons; [congruence|].
        by apply (proj1 IH).
Qed.

(** [Config.get_col_letter] returns [None] exactly for a name that is not a
    column; for a column it returns one upper-case letter, the name that
    [_convert_to_excel_col] gives to the position of the column, and two
    columns never get the same letter. *)
Theorem get_col_letter_colunas (col_name : string) :
  (get_col_letter col_name = None <-> col_name ∉ COLUNAS_TRANSPORTE)
  /\ (forall l, get_col_letter col_name = Some l ->
        exists idx,
          COLUNAS_TRANSPORTE !! idx = Some col_name
          /\ l = _convert_to_excel_col (Z.of_nat idx)
          /\ length l = 1 /\ forallb is_AZ l = true)
  /\ (forall outra l,
        get_col_letter col_name = Some l -> get_col_letter outra = Some l ->
        col_name = outra).
Proof.
  unfold get_col_letter. split; [|split].
  - rewrite <- index_None. destruct (index _ _); simpl; split; done.
  - intros l. destruct (index col_name COLUNAS_TRANSPORTE) as [idx|] eqn:E;
      [|done].
    intros [= <-]. exists idx. pose proof (index_Some _ _ _ E) as Hi.
    assert (idx < 23) by (apply lookup_lt_Some in Hi; exact Hi).
    split; [exact Hi|]. rewrite convert_uma_letra by lia.
    split; [f_equal; lia|]. split; [reflexivity|].
    cbn [forallb]. rewrite andb_true_r.
    unfold is_AZ. apply andb_true_intro. split; apply N.leb_le; lia.
  - intros outra l.
    destruct (index col_name COLUNAS_TRANSPORTE) as [i|] eqn:E1; [|done].
    destruct (index outra COLUNAS_TRANSPORTE) as [j|] eqn:E2; [|done].
    intros [= <-] [= Hj]. assert (j = i) as -> by lia.
    apply index_Some in E1, E2. congruence.
Qed.

Lemma get_col_letter_colunas_witness :
  exists idx,
    COLUNAS_TRANSPORTE !! idx = Some "status"%string
    /\ cp "W" = _convert_to_excel_col (Z.of_nat idx)
    /\ length (cp "W") = 1 /\ forallb is_AZ (cp "W") = true.
Proof.
  apply (proj1 (proj2 (get_col_letter_colunas "status")) (cp "W")).
  reflexivity.
Defined.

(** ** The Bsoft merge *)

Lemma bsoft_passo_invariante bsoft_id nfs l st row :
  (NoDup (e_nfe <$> escritas st)
   /\ (forall e, e ∈ escritas st ->
         (e_nfe e ∉ nfs)
         /\ exists r, r ∈ l /\ e = escrita_de r
                      /\ __ms_file_id_transp r <> bsoft_id)
   /\ nfs_ja_usadas st = nfs ∪ list_to_set (e_nfe <$> escritas st)
   /\ count st = length (escritas st)
   /\ (forall r, r ∈ l -> __ms_file_id_transp r <> bsoft_id ->
         numero r ∈ nfs_ja_usadas st)) ->
  let st' := bsoft_passo bsoft_id st row in
  NoDup (e_nfe <$> escritas st')
  /\ (forall e, e ∈ escritas st' ->
        (e_nfe e ∉ nfs)
        /\ exists r, r ∈ l ++ [row] /\ e = escrita_de r
                     /\ __ms_file_id_transp r <> bsoft_id)
  /\ nfs_ja_usadas st' = nfs ∪ list_to_set (e_nfe <$> escritas st')
  /\ count st' = length (escritas st')
  /\ (forall r, r ∈ l ++ [row] -> __ms_file_id_transp r <> bsoft_id ->
        numero r ∈ nfs_ja_usadas st').
Proof.
  intros (Hnd & He & Hs & Hc & Hr). cbv zeta. unfold bsoft_passo.
  destruct (bool_decide_reflect (__ms_file_id_transp row = bsoft_id)) as [Hf|Hf];
    simpl.
  { split; [done|]. split; [|split; [done|split; [done|]]].
    - intros e Hin. destruct (He e Hin) as (? & r & ? & ? & ?).
      split; [done|]. exists r. rewrite elem_of_app. auto.
    - intros r [Hin|Hin%list_elem_of_singleton]%elem_of_app Hne; [auto|].
      by subst r. }
  destruct (bool_decide_reflect (numero row ∈ nfs_ja_usadas st)) as [Hu|Hu];
    simpl.
  { split; [done|]. split; [|split; [done|split; [done|]]].
    - intros e Hin. destruct (He e Hin) as (? & r & ? & ? & ?).
      split; [done|]. exists r. rewrite elem_of_app. auto.
    - intros r [Hin|Hin%list_elem_of_singleton]%elem_of_app Hne; [auto|].
      by subst r. }
  assert (Hn : (numero row ∉ nfs) /\ (numero row ∉ (e_nfe <$> escritas st))).
  { rewrite Hs in Hu. split; intros H; apply Hu; set_solver. }
  destruct Hn as [Hn1 Hn2].
  split; [|split; [|split; [|split]]].
  - rewrite fmap_app. apply NoDup_app. split; [done|]. split.
    + intros x Hx [->|[]%elem_of_nil]%elem_of_cons. done.
    + apply NoDup_singleton.
  - intros e [Hin|Hin%list_elem_of_singleton]%elem_of_app.
    + destruct (He e Hin) as (? & r & ? & ? & ?).
      split; [done|]. exists r. rewrite elem_of_app. auto.
    + subst e. split; [done|]. exists row. rewrite elem_of_app.
      split; [right; by apply list_elem_of_singleton|done].
  - rewrite Hs, fmap_app, list_to_set_app_L. simpl. set_solver.
  - rewrite length_app. simpl. lia.
  - intros r [Hin|Hin%list_elem_of_singleton]%elem_of_app Hne.
    + apply elem_of_union. right. auto.
    + subst r. set_solver.
Qed.

(** The invoice numbers written by the Bsoft merge are pairwise distinct
    and none of them was in use before the loop: a number, once written to
    a trip, is never written to a second one.  Every call comes from a row
    of [df_match] that is not a row of the Bsoft file itself; [count] is the
    number of calls; the set ends as the numbers in use before the loop and
    the numbers written; and the number of every row of [df_match] outside
    the Bsoft file is in use when the loop ends. *)
Theorem bsoft_nf_unica (bsoft_id : str) (nfs : gset str) (df_match : list Match) :
  let st := atualizar_do_bsoft bsoft_id nfs df_match in
  NoDup (e_nfe <$> escritas st)
  /\ (forall e, e ∈ escritas st ->
        (e_nfe e ∉ nfs)
        /\ exists r, r ∈ df_match /\ e = escrita_de r
                     /\ __ms_file_id_transp r <> bsoft_id)
  /\ nfs_ja_usadas st = nfs ∪ list_to_set (e_nfe <$> escritas st)
  /\ count st = length (escritas st)
  /\ (forall r, r ∈ df_match -> __ms_file_id_transp r <> bsoft_id ->
        numero r ∈ nfs_ja_usadas st).
Proof.
  cbv zeta. unfold atualizar_do_bsoft.
  induction df_match as [|row l IH] using rev_ind.
  - simpl. split; [constructor|]. split; [by intros e ?%elem_of_nil|].
    split; [set_solver|]. split; [done|]. by intros r ?%elem_of_nil.
  - rewrite foldl_app. simpl.
    by apply (bsoft_passo_invariante bsoft_id nfs l).
Qed.
